(** * TransitSense: retrieval pipeline and conversation router

    A shallow embedding of [src/rag_pipeline.py] (class [TransitRetriever])
    and [src/app.py] (the agent graph and the chat loop), with the
    properties of the specification stated over it.

    Conventions.
    - A Python [str] is a [string]: the UTF-8 bytes of the text.  Equality,
      concatenation, [in] (substring) and [join] on code points coincide
      with the same operations on the bytes.  [lower] and [strip] are
      those of Python on texts whose cased letters and white space are
      ASCII.
    - An exception is a value of [exn]; code that can raise returns a
      [result].  [print] appends a line to a log.
    - The language model, the structured-output model, the text splitter
      and the vector store are services outside the repository: they are
      parameters of the definitions that call them, and are taken to
      answer every call. *)

From Stdlib Require Import String Ascii List ZArith Lia Bool DecimalString Sorted.
Import ListNotations.
Open Scope string_scope.
Set Warnings "-register-all".

(** ** Python values the two files compute with *)

Module Py.

(** The exceptions the modelled code can meet.  [OSError] stands for the
    failures of [open] other than a missing file, [JSONDecodeError] for
    [json.load] on text that is not JSON, [GraphRecursionError] is the
    graph runtime's. *)
Inductive exn : Type :=
| FileNotFoundError
| OSError
| JSONDecodeError
| KeyError (key : string)
| TypeError
| IndexError
| ValueError
| GraphRecursionError.

Inductive result (A : Type) : Type :=
| Ok (a : A)
| Raise (e : exn).
Arguments Ok {A} a.
Arguments Raise {A} e.

(** A computation that emits events of type [E] (printed lines, calls to
    outside services) and then returns a value or raises. *)
Definition eff (E A : Type) : Type := (list E * result A)%type.

Definition ret {E A} (a : A) : eff E A := ([], Ok a).
Definition raise {E A} (e : exn) : eff E A := ([], Raise e).
Definition emit {E} (ev : E) : eff E unit := ([ev], Ok tt).
Definition lift {E A} (r : result A) : eff E A := ([], r).

Definition bind {E A B} (m : eff E A) (f : A -> eff E B) : eff E B :=
  match m with
  | (out, Ok a) => let (out', r) := f a in ((out ++ out')%list, r)
  | (out, Raise e) => (out, Raise e)
  end.

Notation "x <- m ;; k" := (bind m (fun x => k))
  (at level 61, m at next level, right associativity).
Notation "m ;;; k" := (bind m (fun _ => k))
  (at level 61, right associativity).

(** The events [evs], then the computation [m]. *)
Definition after {E A} (evs : list E) (m : eff E A) : eff E A :=
  ((evs ++ fst m)%list, snd m).

(** [try: body  except FileNotFoundError: handler] *)
Definition try_except_FileNotFoundError {E A} (body handler : eff E A) : eff E A :=
  match body with
  | (out, Raise FileNotFoundError) => let (out', r) := handler in ((out ++ out')%list, r)
  | _ => body
  end.

(** Sequential evaluation of [f] over a list, stopping at the first
    exception: the shape of a [for] loop that appends one item per turn. *)
Fixpoint mapM {E A B} (f : A -> eff E B) (l : list A) : eff E (list B) :=
  match l with
  | [] => ret []
  | a :: l' => b <- f a ;; bs <- mapM f l' ;; ret (b :: bs)
  end.

Definition nl : string := String "010" EmptyString.
Definition dquote : ascii := "034"%char.
Definition squote : ascii := "039"%char.
Definition backslash : ascii := "092"%char.

(** [str.lower()].  ASCII letters are folded; bytes of other code points
    are kept, so cased letters outside ASCII are not folded here. *)
Definition lower_char (c : ascii) : ascii :=
  let n := nat_of_ascii c in
  if (65 <=? n)%nat && (n <=? 90)%nat then ascii_of_nat (n + 32) else c.

Fixpoint lower (s : string) : string :=
  match s with
  | EmptyString => EmptyString
  | String c s' => String (lower_char c) (lower s')
  end.

(** [str.isspace] on one character, for the ASCII range: tab to carriage
    return, the four separators 0x1c-0x1f, and the space. *)
Definition isspace (c : ascii) : bool :=
  let n := nat_of_ascii c in
  ((9 <=? n)%nat && (n <=? 13)%nat) || ((28 <=? n)%nat && (n <=? 32)%nat).

Fixpoint lstrip (s : string) : string :=
  match s with
  | EmptyString => EmptyString
  | String c s' => if isspace c then lstrip s' else s
  end.

Fixpoint rstrip (s : string) : string :=
  match s with
  | EmptyString => EmptyString
  | String c s' =>
      match rstrip s' with
      | EmptyString => if isspace c then EmptyString else String c EmptyString
      | r => String c r
      end
  end.

(** [str.strip()] *)
Definition strip (s : string) : string := rstrip (lstrip s).

(** The text is ASCII.  On such a text [lower] and [strip] are exactly
    Python's; on other texts Python also folds cased letters and trims
    white space outside ASCII, which the definitions above leave alone. *)
Fixpoint is_ascii (s : string) : bool :=
  match s with
  | EmptyString => true
  | String c s' => (nat_of_ascii c <? 128)%nat && is_ascii s'
  end.

(** [needle in hay] on two strings *)
Fixpoint contains (needle hay : string) : bool :=
  String.prefix needle hay ||
  match hay with
  | EmptyString => false
  | String _ hay' => contains needle hay'
  end.

(** [x in [a, b, ...]] on a list of strings *)
Definition in_list (x : string) (l : list string) : bool :=
  existsb (String.eqb x) l.

(** [sep.join(parts)] *)
Fixpoint join (sep : string) (parts : list string) : string :=
  match parts with
  | [] => EmptyString
  | [x] => x
  | x :: rest => x ++ sep ++ join sep rest
  end.

(** [str(n)] for an [int] *)
Definition str_int (z : Z) : string := NilZero.string_of_int (Z.to_int z).

Definition hex_digit (n : nat) : ascii :=
  if (n <? 10)%nat then ascii_of_nat (48 + n) else ascii_of_nat (87 + n).

(** [repr] of one character of a [str] inside the quote [q].  Bytes from
    0x80 on belong to code points outside ASCII, which are taken to be
    printable and are kept. *)
Definition repr_char (q c : ascii) : string :=
  let n := nat_of_ascii c in
  if Ascii.eqb c q || Ascii.eqb c backslash then String backslash (String c EmptyString)
  else if (n =? 9)%nat then String backslash "t"
  else if (n =? 10)%nat then String backslash "n"
  else if (n =? 13)%nat then String backslash "r"
  else if (n <? 32)%nat || (n =? 127)%nat then
    String backslash (String "x" (String (hex_digit (n / 16)) (String (hex_digit (n mod 16)) EmptyString)))
  else String c EmptyString.

Fixpoint repr_chars (q : ascii) (s : string) : string :=
  match s with
  | EmptyString => EmptyString
  | String c s' => repr_char q c ++ repr_chars q s'
  end.

(** [repr(s)] for a [str]: single quotes, unless the text holds a single
    quote and no double quote. *)
Definition repr_str (s : string) : string :=
  let q :=
    if contains (String squote EmptyString) s && negb (contains (String dquote EmptyString) s)
    then dquote else squote in
  String q (repr_chars q s ++ String q EmptyString).

(** What [json.load] returns.  A [float] is kept by its Python rendering,
    which is all the loader asks of it; a [dict] keeps its items in
    insertion order, one per key. *)
Inductive json : Type :=
| JNull
| JBool (b : bool)
| JInt (z : Z)
| JFloat (shown : string)
| JStr (s : string)
| JArr (items : list json)
| JObj (fields : list (string * json)).

Fixpoint py_repr (v : json) : string :=
  match v with
  | JNull => "None"
  | JBool true => "True"
  | JBool false => "False"
  | JInt z => str_int z
  | JFloat shown => shown
  | JStr s => repr_str s
  | JArr items => "[" ++ join ", " (map py_repr items) ++ "]"
  | JObj fields =>
      "{" ++ join ", " (map (fun kv => match kv with
                                       | (k, x) => repr_str k ++ ": " ++ py_repr x
                                       end) fields) ++ "}"
  end.

(** [str(v)], which is what a replacement field [{v}] of an f-string
    inserts for these types. *)
Definition py_str (v : json) : string :=
  match v with
  | JStr s => s
  | _ => py_repr v
  end.

Fixpoint dict_get {V} (fields : list (string * V)) (key : string) : option V :=
  match fields with
  | [] => None
  | (k, v) :: rest => if String.eqb k key then Some v else dict_get rest key
  end.

(** [d[key] = v] on a [dict]: the value of an existing key is replaced in
    place, a new key goes to the end. *)
Fixpoint dict_set {V} (fields : list (string * V)) (key : string) (v : V) : list (string * V) :=
  match fields with
  | [] => [(key, v)]
  | (k, x) :: rest =>
      if String.eqb k key then (k, v) :: rest else (k, x) :: dict_set rest key v
  end.

(** [t[key]] with a string key: only a [dict] accepts it. *)
Definition getitem (t : json) (key : string) : result json :=
  match t with
  | JObj fields =>
      match dict_get fields key with
      | Some v => Ok v
      | None => Raise (KeyError key)
      end
  | _ => Raise TypeError
  end.

Fixpoint chars (s : string) : list json :=
  match s with
  | EmptyString => []
  | String c s' => JStr (String c EmptyString) :: chars s'
  end.

(** The items a [for t in data] loop visits: the elements of a list, the
    keys of a dict, the characters of a string (one item per byte here;
    the loader fails on the first of them whatever it is). *)
Definition iterate (data : json) : result (list json) :=
  match data with
  | JArr items => Ok items
  | JObj fields => Ok (map (fun kv => JStr (fst kv)) fields)
  | JStr s => Ok (chars s)
  | _ => Raise TypeError
  end.

End Py.

(** ** [src/rag_pipeline.py] *)

Module RagPipeline.
Import Py.

(** [langchain_core.documents.Document] *)
Record Document : Type := {
  page_content : string;
  metadata : list (string * string)
}.

(** What the two reads of the loaders give for a path: [open] followed by
    [json.load], and [open] followed by [f.read()].  A missing file is
    [Raise FileNotFoundError]. *)
Record FileSystem : Type := {
  json_load : string -> result json;
  read : string -> result string
}.

(** [FAISS.from_documents(all_docs, embeddings)]: the store holds the
    documents it was built from. *)
Record FAISS : Type := {
  docstore : list Document
}.

(** [vectorstore.as_retriever(search_kwargs={"k": k})] *)
Record VectorStoreRetriever : Type := {
  vectorstore_of : FAISS;
  search_kwargs_k : nat
}.

Record TransitRetriever : Type := {
  json_path : string;
  policy_path : string;
  vectorstore : option FAISS;
  retriever : option VectorStoreRetriever
}.

Definition print (line : string) : eff string unit := emit line.

(** The f-string of [_load_json_docs]: the seven subscripts are evaluated
    left to right, each followed by its formatting. *)
Definition train_text (t : json) : result string :=
  match getitem t "name" with Raise e => Raise e | Ok name =>
  match getitem t "train_no" with Raise e => Raise e | Ok train_no =>
  match getitem t "source" with Raise e => Raise e | Ok source =>
  match getitem t "destination" with Raise e => Raise e | Ok destination =>
  match getitem t "price" with Raise e => Raise e | Ok price =>
  match getitem t "class" with Raise e => Raise e | Ok class =>
  match getitem t "days" with Raise e => Raise e | Ok days =>
    Ok ("Train " ++ py_str name ++ " (" ++ py_str train_no ++ ") travels from "
        ++ py_str source ++ " to " ++ py_str destination ++ ". Price: "
        ++ py_str price ++ ". Class: " ++ py_str class ++ ". Days: "
        ++ py_str days ++ ".")
  end end end end end end end.

Section Pipeline.

(** The files as [open] finds them. *)
Variable fs : FileSystem.

(** [RecursiveCharacterTextSplitter(chunk_size, chunk_overlap).split_text]:
    the windows of a text, in order. *)
Variable split_text : nat -> nat -> string -> list string.

(** The store's similarity search behind [retriever.invoke]: documents
    held by the store, query, number of results asked for. *)
Variable similarity_search : list Document -> string -> nat -> list Document.

(** [splitter.create_documents([text])]: one document per window, with a
    fresh empty metadata. *)
Definition create_documents (chunk_size chunk_overlap : nat) (texts : list string)
  : list Document :=
  flat_map (fun text =>
              map (fun chunk => {| page_content := chunk; metadata := [] |})
                  (split_text chunk_size chunk_overlap text)) texts.

Definition _load_json_docs (self : TransitRetriever) : eff string (list Document) :=
  try_except_FileNotFoundError
    (data <- lift (json_load fs (json_path self)) ;;
     items <- lift (iterate data) ;;
     mapM (fun t =>
             text <- lift (train_text t) ;;
             ret {| page_content := text; metadata := [("source", "schedule")] |})
          items)
    (print ("⚠️ Warning: " ++ json_path self ++ " not found.") ;;;
     ret []).

Definition _load_text_docs (self : TransitRetriever) : eff string (list Document) :=
  try_except_FileNotFoundError
    (text <- lift (read fs (policy_path self)) ;;
     let docs := create_documents 500 80 [text] in
     ret (map (fun d => {| page_content := page_content d;
                           metadata := dict_set (metadata d) "source" "policy" |})
              docs))
    (print ("⚠️ Warning: " ++ policy_path self ++ " not found.") ;;;
     ret []).

(** The local [all_docs] of [_build_pipeline]. *)
Definition all_docs (self : TransitRetriever) : eff string (list Document) :=
  train_docs <- _load_json_docs self ;;
  policy_docs <- _load_text_docs self ;;
  ret (train_docs ++ policy_docs)%list.

(** [_build_pipeline] returns [self] as the method leaves it. *)
Definition _build_pipeline (self : TransitRetriever) : eff string TransitRetriever :=
  print "⚙️ Building RAG Pipeline..." ;;;
  docs <- all_docs self ;;
  match docs with
  | [] =>
      print "❌ No documents found to index." ;;;
      ret self
  | _ :: _ =>
      let store := {| docstore := docs |} in
      let self' := {| json_path := json_path self;
                      policy_path := policy_path self;
                      vectorstore := Some store;
                      retriever := Some {| vectorstore_of := store;
                                           search_kwargs_k := 3 |} |} in
      print ("✅ RAG Pipeline Ready. Loaded "
             ++ str_int (Z.of_nat (length docs)) ++ " chunks.") ;;;
      ret self'
  end.

Definition __init__ (json_path policy_path : string) : eff string TransitRetriever :=
  _build_pipeline {| json_path := json_path;
                     policy_path := policy_path;
                     vectorstore := None;
                     retriever := None |}.

(** [retriever.invoke(query)] *)
Definition invoke (r : VectorStoreRetriever) (query : string) : list Document :=
  similarity_search (docstore (vectorstore_of r)) query (search_kwargs_k r).

Definition search (self : TransitRetriever) (query : string) : eff string string :=
  match retriever self with
  | None => ret "Pipeline not initialized."
  | Some r =>
      print ("🔎 Searching: " ++ query) ;;;
      let docs := invoke r query in
      ret (join (nl ++ nl) (map page_content docs))
  end.

End Pipeline.

End RagPipeline.

(** ** [src/app.py] *)

Module App.
Import Py RagPipeline.

(** A tool call of an assistant message.  The model is bound to one tool,
    [search_railway_info], whose only argument is [query]: a call carries
    its id and that argument. *)
Record ToolCall : Type := {
  id : string;
  query : string
}.

(** [langchain_core.messages]: the message classes the file builds or
    receives, with the fields it reads. *)
Inductive BaseMessage : Type :=
| SystemMessage (content : string)
| HumanMessage (content : string)
| AIMessage (content : string) (tool_calls : list ToolCall)
| ToolMessage (content : string) (tool_call_id : string).

Definition content (m : BaseMessage) : string :=
  match m with
  | SystemMessage c => c
  | HumanMessage c => c
  | AIMessage c _ => c
  | ToolMessage c _ => c
  end.

(** [isinstance(m, AIMessage) and m.tool_calls], as a truth value *)
Definition requests_tool (m : BaseMessage) : bool :=
  match m with
  | AIMessage _ (_ :: _) => true
  | _ => false
  end.

Record TicketBooking : Type := {
  train_name : string;
  source : string;
  destination : string;
  passenger_name : string;
  class_type : string
}.

(** [str(result)] for the pydantic model: the fields in declaration
    order, each as [name=repr(value)], separated by one space. *)
Definition str_TicketBooking (b : TicketBooking) : string :=
  "train_name=" ++ repr_str (train_name b)
  ++ " source=" ++ repr_str (source b)
  ++ " destination=" ++ repr_str (destination b)
  ++ " passenger_name=" ++ repr_str (passenger_name b)
  ++ " class_type=" ++ repr_str (class_type b).

(** What a turn does besides computing its reply. *)
Inductive event : Type :=
| LLMInvoke (input : list BaseMessage)
| StructuredInvoke (input : list BaseMessage)
| ToolInvoke (query : string)
| Printed (line : string).

(** [AgentState]: the [messages] channel. *)
Definition AgentState : Type := list BaseMessage.
Bind Scope list_scope with AgentState.

(** The [add_messages] reducer on messages with fresh ids: the update is
    appended. *)
Definition add_messages (left right : list BaseMessage) : list BaseMessage :=
  (left ++ right)%list.

(** [messages[-1]] *)
Definition last_message (messages : list BaseMessage) : result BaseMessage :=
  match rev messages with
  | [] => Raise IndexError
  | m :: _ => Ok m
  end.

Definition affirmative : list string :=
  ["yes"; "y"; "book"; "book it"; "confirm"; "ok book"].

Definition negative : list string := ["no"; "nope"; "nah"].

Definition irctc_url : string := "https://www.irctc.co.in/nget/train-search".

Definition booking_link_response : string :=
  "Great! You can book the ticket using the official IRCTC portal:" ++ nl
  ++ "👉 **https://www.irctc.co.in/nget/train-search**" ++ nl ++ nl
  ++ "If you'd like, I can help you find more trains or compare prices!".

Definition decline_response : string :=
  "No problem! Tell me what else you want to search or ask.".

Definition system_prompt : string :=
  "You are TransitSense." ++ nl
  ++ "1. Use 'search_railway_info' tool when user asks about schedules or policies." ++ nl
  ++ "2. If user says 'book this' or 'confirm ticket', ask for passenger name if missing." ++ nl
  ++ "3. When ready, output EXACT TEXT: READY_TO_BOOK." ++ nl.

Inductive Node : Type := agent | tools | booking | END.

Section Graph.

(** [llm_with_tools.invoke]: the text and the tool calls of the reply. *)
Variable llm_with_tools : list BaseMessage -> string * list ToolCall.

(** [structured_llm.invoke] *)
Variable structured_llm : list BaseMessage -> TicketBooking.

(** The store's similarity search, and the retriever built at start-up. *)
Variable similarity_search : list Document -> string -> nat -> list Document.
Variable transit_db : TransitRetriever.

Definition search_railway_info (q : string) : eff event string :=
  emit (ToolInvoke q) ;;;
  let (out, r) := search similarity_search transit_db q in
  (map Printed out, r).

Definition agent_logic (state : AgentState) : eff event (list BaseMessage) :=
  let messages := state in
  last <- lift (last_message messages) ;;
  let user_msg := lower (content last) in
  if in_list user_msg affirmative then
    ret [AIMessage booking_link_response []]
  else if in_list user_msg negative then
    ret [AIMessage decline_response []]
  else
    let system := SystemMessage system_prompt in
    emit (LLMInvoke (system :: messages)) ;;;
    let response := llm_with_tools (system :: messages) in
    ret [AIMessage (fst response) (snd response)].

Definition booking_parser (state : AgentState) : eff event (list BaseMessage) :=
  let messages := state in
  emit (Printed "📝 Generating Final Ticket JSON...") ;;;
  emit (StructuredInvoke messages) ;;;
  let result := structured_llm messages in
  ret [AIMessage (str_TicketBooking result) []].

Definition isinstance_AIMessage (m : BaseMessage) : bool :=
  match m with
  | AIMessage _ _ => true
  | _ => false
  end.

(** [ToolNode(tools)]: the node takes the latest assistant message of the
    conversation, runs every tool call of it, in order, and answers each
    with a tool message carrying the tool's text. *)
Definition tool_node (state : AgentState) : eff event (list BaseMessage) :=
  match find isinstance_AIMessage (rev state) with
  | Some (AIMessage _ calls) =>
      mapM (fun call =>
              text <- search_railway_info (query call) ;;
              ret (ToolMessage text (id call)))
           calls
  | _ => raise ValueError
  end.

(** The conditional edge out of ["agent"]. *)
Definition route (state : AgentState) : result Node :=
  match last_message state with
  | Raise e => Raise e
  | Ok last =>
      Ok (if requests_tool last then tools
          else if contains "READY_TO_BOOK" (content last) then booking
          else END)
  end.

(** One node of the graph: the node runs on the state, its update goes
    through the reducer, and the edge out of the node names the next. *)
Definition step (node : Node) (state : AgentState) : eff event (Node * AgentState) :=
  match node with
  | agent =>
      update <- agent_logic state ;;
      let state' := add_messages state update in
      next <- lift (route state') ;;
      ret (next, state')
  | tools =>
      update <- tool_node state ;;
      ret (agent, add_messages state update)
  | booking =>
      update <- booking_parser state ;;
      ret (END, add_messages state update)
  | END => ret (END, state)
  end.

(** The graph runtime behind [app.invoke]: nodes run one after the other
    along the edges until [END].  The runtime counts the steps of a run
    and, before it looks for the next node, gives up with
    [GraphRecursionError] once the count has passed its recursion limit:
    a run may execute as many nodes as the limit says, and it returns
    only if it reaches [END] with a step to spare.  [recursion_limit] is
    the number of nodes the run may still execute. *)
Fixpoint run (recursion_limit : nat) (node : Node) (state : AgentState)
  : eff event AgentState :=
  match recursion_limit with
  | O => raise GraphRecursionError
  | S limit =>
      match node with
      | END => ret state
      | _ =>
          next <- step node state ;;
          run limit (fst next) (snd next)
      end
  end.

(** The limit of a run started without a config, as every run of this
    program is: the graph library's default. *)
Definition default_recursion_limit : nat := 25.

(** [app.invoke(input)]: the entry point is ["agent"]. *)
Definition app_invoke (input : list BaseMessage) : eff event AgentState :=
  run default_recursion_limit agent (add_messages [] input).

Inductive TurnResult : Type :=
| Break
| Reply (text : string).

(** One pass of the chat loop on a line read by [input].  Nothing in the
    loop catches an exception of the graph. *)
Definition chat_turn (line : string) : eff event TurnResult :=
  let user_input := strip line in
  if in_list (lower user_input) ["exit"; "quit"] then ret Break
  else
    result <- app_invoke [HumanMessage user_input] ;;
    ai_msg <- lift (last_message result) ;;
    emit (Printed (nl ++ "AI: " ++ content ai_msg ++ " " ++ nl)) ;;;
    ret (Reply (content ai_msg)).

End Graph.

(** Start-up, lines 32-36: the retriever is built with its default paths;
    any exception of the build is caught and followed by [exit()].  The
    log kept here is the build's; the line the handler prints about the
    exception is left out of it. *)
Inductive Startup : Type :=
| Started (transit_db : TransitRetriever)
| Exited (cause : exn).

Definition startup (fs : FileSystem) (split_text : nat -> nat -> string -> list string)
  : list string * Startup :=
  match __init__ fs split_text "train_data.json" "policies.txt" with
  | (out, Ok db) => (out, Started db)
  | (out, Raise e) => (out, Exited e)
  end.

End App.

(** ** Vocabulary of the properties *)

Module Spec.
Import Py RagPipeline App.
Local Open Scope list_scope.

Definition required_fields : list string :=
  ["name"; "train_no"; "source"; "destination"; "price"; "class"; "days"].

(** A record that has every field the loader reads. *)
Definition well_formed (t : json) : Prop :=
  exists fields,
    t = JObj fields
    /\ forall key, In key required_fields -> dict_get fields key <> None.

(** [d] is the chunk of the record [t]: it is tagged schedule and its
    text shows the value of every field of [t]. *)
Definition schedule_chunk_of (t : json) (d : Document) : Prop :=
  dict_get (metadata d) "source" = Some "schedule"
  /\ forall key, In key required_fields ->
       exists v, getitem t key = Ok v /\ contains (py_str v) (page_content d) = true.

Definition schedule_document (text : string) : Document :=
  {| page_content := text; metadata := [("source", "schedule")] |}.

Definition not_found_warning (path : string) : string :=
  ("⚠️ Warning: " ++ path ++ " not found.")%string.

Definition fresh (json_path policy_path : string) : TransitRetriever :=
  {| json_path := json_path; policy_path := policy_path;
     vectorstore := None; retriever := None |}.

(** A chunk of the policy text. *)
Definition policy_document (window : string) : Document :=
  {| page_content := window; metadata := [("source", "policy")] |}.

Section Store.

Variable similarity_search : list Document -> string -> nat -> list Document.

(** [found] is ordered by similarity to the query [q], nearest first;
    [similarity q d] ranks the document [d] for [q], larger meaning
    nearer. *)
Definition nearest_first (similarity : string -> Document -> Z) (q : string)
           (found : list Document) : Prop :=
  StronglySorted (fun a b => (similarity q b <= similarity q a)%Z) found.

(** Modelled from the spec: the vector store behind [retriever.invoke]
    and its similarity measure are a third-party service, not code of the
    repository.  The spec gives the contract of a query as "retrieve the k
    nearest Chunks by vector similarity", "in similarity-descending
    order", "length <= k": the store answers with at most [k] of the
    documents it holds, nearest first. *)
Definition store_contract (similarity : string -> Document -> Z) : Prop :=
  forall (docs : list Document) (q : string) (k : nat),
    length (similarity_search docs q k) <= k
    /\ incl (similarity_search docs q k) docs
    /\ nearest_first similarity q (similarity_search docs q k).

Variable transit_db : TransitRetriever.

(** The text [search] returns and the lines it prints. *)
Definition search_text (q : string) : string :=
  match retriever transit_db with
  | None => "Pipeline not initialized."
  | Some r => join (nl ++ nl)%string (map page_content (invoke similarity_search r q))
  end.

Definition search_log (q : string) : list string :=
  match retriever transit_db with
  | None => []
  | Some _ => [("🔎 Searching: " ++ q)%string]
  end.

(** The tool messages that answer [calls], and the events of running them. *)
Definition tool_messages (calls : list ToolCall) : list BaseMessage :=
  map (fun call => ToolMessage (search_text (query call)) (id call)) calls.

Definition tool_events (calls : list ToolCall) : list event :=
  flat_map (fun call => ToolInvoke (query call) :: map Printed (search_log (query call)))
           calls.

End Store.

(** Number of calls to the language model among the events of a run. *)
Definition llm_invocations (evs : list event) : nat :=
  length (filter (fun ev => match ev with LLMInvoke _ => true | _ => false end) evs).

(** The last message is neither a yes nor a no. *)
Definition open_ended (state : AgentState) : Prop :=
  exists last,
    last_message state = Ok last
    /\ in_list (lower (content last)) affirmative = false
    /\ in_list (lower (content last)) negative = false.

(** The loop of [_load_json_docs] over the items of the parsed data. *)
Definition load_loop (items : list json) : eff string (list Document) :=
  mapM (fun t =>
          text <- lift (train_text t) ;;
          ret {| page_content := text; metadata := [("source", "schedule")] |})
       items.

(** The node the conditional edge picks after the agent has added [m]. *)
Definition next_node (m : BaseMessage) : Node :=
  if requests_tool m then tools
  else if contains "READY_TO_BOOK" (content m) then booking else END.

(** [final] continues the conversation [start] and ends on an assistant
    message that asks for no tool. *)
Definition ends_answered (start final : AgentState) : Prop :=
  (exists suffix, final = start ++ suffix)
  /\ (exists prefix text, final = prefix ++ [AIMessage text []]).

Section Calls.

Variable llm_with_tools : list BaseMessage -> string * list ToolCall.
Variable structured_llm : list BaseMessage -> TicketBooking.
Variable similarity_search : list Document -> string -> nat -> list Document.
Variable transit_db : TransitRetriever.

(** The messages a call adds to the conversation.  A call to the language
    model adds the assistant message made of its answer, followed by the
    tool message of every tool call that answer asks for, each with the
    text [search] returns for the call's query.  A call to the structured
    model adds the text of the record it returned.  A printed line or a
    run of the tool adds nothing more. *)
Definition produced (ev : event) : list BaseMessage :=
  match ev with
  | LLMInvoke input =>
      AIMessage (fst (llm_with_tools input)) (snd (llm_with_tools input))
      :: tool_messages similarity_search transit_db (snd (llm_with_tools input))
  | StructuredInvoke input => [AIMessage (str_TicketBooking (structured_llm input)) []]
  | _ => []
  end.

(** The conversation [state] once the events [evs] have taken place. *)
Definition conversation_after (state : AgentState) (evs : list event) : AgentState :=
  state ++ flat_map produced evs.

(** In a turn started on [state] with the events [evs], every call to the
    language model was given the system prompt followed by the
    conversation as the events before the call left it, and every call to
    the structured model was given that conversation alone. *)
Definition inputs_match (state : AgentState) (evs : list event) : Prop :=
  (forall before input after,
      evs = before ++ LLMInvoke input :: after ->
      input = SystemMessage system_prompt :: conversation_after state before)
  /\ (forall before input after,
         evs = before ++ StructuredInvoke input :: after ->
         input = conversation_after state before).

(** The conversation [final] is [state] with what the events [evs] added
    and, at most, one of the two fixed replies at its end. *)
Definition final_matches (state final : AgentState) (evs : list event) : Prop :=
  exists canned,
    final = conversation_after state evs ++ canned
    /\ (canned = []
        \/ canned = [AIMessage booking_link_response []]
        \/ canned = [AIMessage decline_response []]).

End Calls.

End Spec.

(** ** Concrete services and inputs for the examples *)

Module Examples.
Import Py RagPipeline App.

(** No file exists. *)
Definition no_files : FileSystem :=
  {| json_load := fun _ => Raise FileNotFoundError;
     read := fun _ => Raise FileNotFoundError |}.

Definition rajdhani : json :=
  JObj [("name", JStr "Rajdhani Express"); ("train_no", JInt 12951);
        ("source", JStr "Mumbai"); ("destination", JStr "Delhi");
        ("price", JInt 2500); ("class", JStr "3A");
        ("days", JArr [JStr "Mon"; JStr "Thu"])].

Definition shatabdi : json :=
  JObj [("name", JStr "Shatabdi Express"); ("train_no", JStr "12002");
        ("source", JStr "Delhi"); ("destination", JStr "Bhopal");
        ("price", JInt 1200); ("class", JStr "CC");
        ("days", JStr "Daily")].

(** A record with every field but [price]. *)
Definition no_price : json :=
  JObj [("name", JStr "Duronto Express"); ("train_no", JInt 12213);
        ("source", JStr "Pune"); ("destination", JStr "Delhi");
        ("class", JStr "2A"); ("days", JStr "Tue")].

(** Only the schedule exists, under the default path. *)
Definition schedule_only (data : json) : FileSystem :=
  {| json_load := fun path =>
       if String.eqb path "train_data.json" then Ok data else Raise FileNotFoundError;
     read := fun _ => Raise FileNotFoundError |}.

(** Only the policy text exists, under the default path. *)
Definition policy_only (text : string) : FileSystem :=
  {| json_load := fun _ => Raise FileNotFoundError;
     read := fun path =>
       if String.eqb path "policies.txt" then Ok text else Raise FileNotFoundError |}.

(** A splitter that returns the text as one window. *)
Definition one_window (chunk_size chunk_overlap : nat) (text : string) : list string :=
  [text].

(** A store that answers with the first [k] documents it holds. *)
Definition first_k (docs : list Document) (q : string) (k : nat) : list Document :=
  firstn k docs.

(** The retriever before its build, and after a build that found nothing. *)
Definition not_built : TransitRetriever :=
  {| json_path := "train_data.json"; policy_path := "policies.txt";
     vectorstore := None; retriever := None |}.

(** A model that greets and asks for nothing. *)
Definition greeter (input : list BaseMessage) : string * list ToolCall :=
  ("Hello! How can I help?", []).

(** A model that asks for the Search Tool whatever it is shown. *)
Definition always_searches (input : list BaseMessage) : string * list ToolCall :=
  ("", [{| id := "call_0"; query := "trains to Delhi" |}]).

(** A model that asks for the tool once, on the bare question, and then
    announces the booking. *)
Definition searches_once (input : list BaseMessage) : string * list ToolCall :=
  match input with
  | [_; _] => ("READY_TO_BOOK", [{| id := "call_0"; query := "trains to Delhi" |}])
  | _ => ("All set. READY_TO_BOOK", [])
  end.

Definition a_booking (input : list BaseMessage) : TicketBooking :=
  {| train_name := "Rajdhani Express"; source := "Mumbai"; destination := "Delhi";
     passenger_name := "Asha"; class_type := "3A" |}.

Definition question : AgentState := [HumanMessage "Which trains go to Delhi?"].

Definition call_0 : ToolCall := {| id := "call_0"; query := "trains to Delhi" |}.

(** The conversation after one tool round on an index that was not built. *)
Definition after_search : AgentState :=
  (question ++ [AIMessage "READY_TO_BOOK" [call_0]]
            ++ [ToolMessage "Pipeline not initialized." "call_0"])%list.

(** A store that ranks a document 1 when its text is the query and 0
    otherwise, and answers with the exact matches first. *)
Definition is_exact (q : string) (d : Document) : bool := String.eqb (page_content d) q.

Definition exact_similarity (q : string) (d : Document) : Z :=
  if is_exact q d then 1%Z else 0%Z.

Definition exact_first (docs : list Document) (q : string) (k : nat) : list Document :=
  firstn k (filter (is_exact q) docs ++ filter (fun d => negb (is_exact q d)) docs).

(** The index built from a policy file that holds the single word "No",
    cut into one window. *)
Definition curt_db : TransitRetriever :=
  {| json_path := "train_data.json"; policy_path := "policies.txt";
     vectorstore := Some {| docstore := [{| page_content := "No";
                                            metadata := [("source", "policy")] |}] |};
     retriever := Some {| vectorstore_of :=
                            {| docstore := [{| page_content := "No";
                                               metadata := [("source", "policy")] |}] |};
                          search_kwargs_k := 3 |} |}.

(** The schedule file exists and is not JSON; there is no policy file. *)
Definition garbled_schedule : FileSystem :=
  {| json_load := fun path =>
       if String.eqb path "train_data.json" then Raise JSONDecodeError
       else Raise FileNotFoundError;
     read := fun _ => Raise FileNotFoundError |}.

(** Both files exist. *)
Definition both_files (data : json) (text : string) : FileSystem :=
  {| json_load := fun path =>
       if String.eqb path "train_data.json" then Ok data else Raise FileNotFoundError;
     read := fun path =>
       if String.eqb path "policies.txt" then Ok text else Raise FileNotFoundError |}.

(** A splitter that cuts a text at its first full stop. *)
Fixpoint up_to_stop (s : string) : string * string :=
  match s with
  | EmptyString => (EmptyString, EmptyString)
  | String c s' =>
      if Ascii.eqb c "."%char then (String c EmptyString, s')
      else let (head, tail) := up_to_stop s' in (String c head, tail)
  end.

Definition two_windows (chunk_size chunk_overlap : nat) (text : string) : list string :=
  let (head, tail) := up_to_stop text in [head; tail].

End Examples.

(** ** Facts about the string operations *)

Section StringFacts.
Import Py.

Lemma prefix_append (n b : string) : String.prefix n (n ++ b) = true.
Proof.
  induction n as [|c n IH]; simpl.
  - now destruct b.
  - destruct (ascii_dec c c) as [_|ne]; [exact IH | now elim ne].
Qed.

Lemma contains_prefix (n h : string) : String.prefix n h = true -> contains n h = true.
Proof. intros H. destruct h; cbn [contains]; now rewrite H. Qed.

Lemma contains_append (n a b : string) : contains n (a ++ n ++ b) = true.
Proof.
  induction a as [|c a IH]; simpl.
  - apply contains_prefix, prefix_append.
  - rewrite IH. apply orb_true_r.
Qed.

Lemma in_list_In (x : string) (l : list string) : in_list x l = true <-> In x l.
Proof.
  unfold in_list. rewrite existsb_exists. split.
  - intros [y [Hy E]]. apply String.eqb_eq in E. now subst.
  - intros H. exists x. split; [exact H | apply String.eqb_refl].
Qed.

Lemma isspace_lower_char (c : ascii) : isspace (lower_char c) = isspace c.
Proof.
  unfold lower_char.
  destruct ((65 <=? nat_of_ascii c)%nat && (nat_of_ascii c <=? 90)%nat) eqn:E;
    [|reflexivity].
  apply andb_true_iff in E. destruct E as [Hlo Hhi].
  apply Nat.leb_le in Hlo. apply Nat.leb_le in Hhi.
  unfold isspace. rewrite nat_ascii_embedding by lia.
  assert (A : (nat_of_ascii c + 32 <=? 13)%nat = false) by (apply Nat.leb_gt; lia).
  assert (B : (nat_of_ascii c + 32 <=? 32)%nat = false) by (apply Nat.leb_gt; lia).
  assert (C : (nat_of_ascii c <=? 13)%nat = false) by (apply Nat.leb_gt; lia).
  assert (D : (nat_of_ascii c <=? 32)%nat = false) by (apply Nat.leb_gt; lia).
  rewrite A, B, C, D. now rewrite !andb_false_r.
Qed.

Lemma lower_lstrip (s : string) : lower (lstrip s) = lstrip (lower s).
Proof.
  induction s as [|c s IH]; simpl; [reflexivity|].
  rewrite isspace_lower_char. now destruct (isspace c).
Qed.

Lemma lower_rstrip (s : string) : lower (rstrip s) = rstrip (lower s).
Proof.
  induction s as [|c s IH]; simpl; [reflexivity|].
  rewrite <- IH, isspace_lower_char.
  destruct (rstrip s); simpl; [now destruct (isspace c)|reflexivity].
Qed.

(** Folding the case and trimming commute. *)
Lemma lower_strip (s : string) : lower (strip s) = strip (lower s).
Proof. unfold strip. now rewrite lower_rstrip, lower_lstrip. Qed.

End StringFacts.

(** ** Facts about the effect monad and the graph *)

Section GraphFacts.
Import Py RagPipeline App Spec.

Lemma bind_Ok {E A B} (evs : list E) (a : A) (f : A -> eff E B) :
  bind (evs, Ok a) f = after evs (f a).
Proof. unfold after. simpl. now destruct (f a). Qed.

Lemma bind_Raise {E A B} (evs : list E) (e : exn) (f : A -> eff E B) :
  bind (evs, Raise e) f = (evs, Raise e).
Proof. reflexivity. Qed.

Lemma after_nil {E A} (m : eff E A) : after [] m = m.
Proof. now destruct m. Qed.

Lemma after_ret {E A} (evs : list E) (a : A) : after evs (ret a) = (evs, Ok a).
Proof. unfold after, ret. simpl. now rewrite app_nil_r. Qed.

Lemma bind_ret_l {E A B} (a : A) (f : A -> eff E B) : bind (ret a) f = f a.
Proof. unfold ret. rewrite bind_Ok. apply after_nil. Qed.

Lemma bind_lift_Ok {E A B} (a : A) (f : A -> eff E B) : bind (lift (Ok a)) f = f a.
Proof. apply bind_ret_l. Qed.

Lemma bind_ret_r {E A} (m : eff E A) : bind m (fun a => ret a) = m.
Proof.
  destruct m as [out [a|e]]; [|reflexivity].
  rewrite bind_Ok. apply after_ret.
Qed.

Lemma after_after {E A} (evs evs' : list E) (m : eff E A) :
  after evs (after evs' m) = after (evs ++ evs') m.
Proof. unfold after. simpl. now rewrite app_assoc. Qed.

Lemma last_message_snoc (state : AgentState) (m : BaseMessage) :
  last_message (state ++ [m]) = Ok m.
Proof. unfold last_message. now rewrite rev_unit. Qed.

Lemma route_snoc (state : AgentState) (m : BaseMessage) :
  route (state ++ [m]) =
  Ok (if requests_tool m then tools
      else if contains "READY_TO_BOOK" (content m) then booking else END).
Proof. unfold route. now rewrite last_message_snoc. Qed.

Variable llm_with_tools : list BaseMessage -> string * list ToolCall.
Variable structured_llm : list BaseMessage -> TicketBooking.
Variable similarity_search : list Document -> string -> nat -> list Document.
Variable transit_db : TransitRetriever.

Local Abbreviation step' := (step llm_with_tools structured_llm similarity_search transit_db).
Local Abbreviation run' := (run llm_with_tools structured_llm similarity_search transit_db).

(** The agent node, once [agent_logic] has answered with one message. *)
Lemma step_agent (state : AgentState) (evs : list event) (m : BaseMessage) :
  agent_logic llm_with_tools state = (evs, Ok [m]) ->
  step' agent state =
  (evs, Ok (if requests_tool m then tools
            else if contains "READY_TO_BOOK" (content m) then booking else END,
            (state ++ [m])%list)).
Proof.
  intros H. unfold step. rewrite H, bind_Ok.
  unfold add_messages. rewrite route_snoc. unfold lift.
  rewrite bind_Ok, after_nil. apply after_ret.
Qed.

Lemma run_END (limit : nat) (state : AgentState) :
  run' (S limit) END state = ret state.
Proof. reflexivity. Qed.

Lemma run_step (limit : nat) (node : Node) (state : AgentState) evs next state' :
  node <> END ->
  step' node state = (evs, Ok (next, state')) ->
  run' (S limit) node state = after evs (run' limit next state').
Proof.
  intros Hn H.
  destruct node; try (now elim Hn); cbn [run]; rewrite H, bind_Ok; reflexivity.
Qed.

(** A reply with no tool call and no sentinel ends the turn. *)
Lemma run_agent_final (limit : nat) (state : AgentState) evs text :
  agent_logic llm_with_tools state = (evs, Ok [AIMessage text []]) ->
  contains "READY_TO_BOOK" text = false ->
  run' (S (S limit)) agent state = (evs, Ok (state ++ [AIMessage text []])%list).
Proof.
  intros H Hs. apply step_agent in H. cbn [requests_tool content] in H.
  rewrite Hs in H.
  rewrite (run_step (S limit) agent state _ _ _ (fun E => ltac:(discriminate E)) H).
  rewrite run_END. apply after_ret.
Qed.

Lemma agent_logic_affirmative (state : AgentState) (last : BaseMessage) :
  last_message state = Ok last ->
  in_list (lower (content last)) affirmative = true ->
  agent_logic llm_with_tools state = ([], Ok [AIMessage booking_link_response []]).
Proof.
  intros Hl Hin. unfold agent_logic. rewrite Hl. unfold lift.
  rewrite bind_Ok, after_nil. now rewrite Hin.
Qed.

Lemma negative_not_affirmative (x : string) :
  in_list x negative = true -> in_list x affirmative = false.
Proof.
  intros H. apply in_list_In in H. simpl in H.
  destruct H as [<-|[<-|[<-|[]]]]; reflexivity.
Qed.

Lemma agent_logic_negative (state : AgentState) (last : BaseMessage) :
  last_message state = Ok last ->
  in_list (lower (content last)) negative = true ->
  agent_logic llm_with_tools state = ([], Ok [AIMessage decline_response []]).
Proof.
  intros Hl Hin. unfold agent_logic. rewrite Hl. unfold lift.
  rewrite bind_Ok, after_nil.
  now rewrite (negative_not_affirmative _ Hin), Hin.
Qed.

(** Any other text reaches the model, with the system prompt in front of
    the whole history. *)
Lemma agent_logic_default (state : AgentState) (last : BaseMessage) :
  last_message state = Ok last ->
  in_list (lower (content last)) affirmative = false ->
  in_list (lower (content last)) negative = false ->
  agent_logic llm_with_tools state =
  ([LLMInvoke (SystemMessage system_prompt :: state)],
   Ok [AIMessage (fst (llm_with_tools (SystemMessage system_prompt :: state)))
                 (snd (llm_with_tools (SystemMessage system_prompt :: state)))]).
Proof.
  intros Hl Ha Hn. unfold agent_logic. rewrite Hl. unfold lift.
  rewrite bind_Ok, after_nil. now rewrite Ha, Hn.
Qed.

(** The chat loop hands the graph one message, the trimmed line, and
    prints the text of the last message of what the graph returns. *)
Lemma chat_turn_invoke (line : string) :
  in_list (lower (strip line)) ["exit"; "quit"] = false ->
  chat_turn llm_with_tools structured_llm similarity_search transit_db line
  = match run' default_recursion_limit agent [HumanMessage (strip line)] with
    | (evs, Ok final) =>
        match last_message final with
        | Ok ai_msg =>
            ((evs ++ [Printed (nl ++ "AI: " ++ content ai_msg ++ " " ++ nl)])%list,
             Ok (Reply (content ai_msg)))
        | Raise e => (evs, Raise e)
        end
    | (evs, Raise e) => (evs, Raise e)
    end.
Proof.
  intros Hx. unfold chat_turn. rewrite Hx.
  unfold app_invoke, add_messages. cbn [app].
  destruct (run' default_recursion_limit agent [HumanMessage (strip line)])
    as [evs [final|e]]; [|reflexivity].
  rewrite bind_Ok. destruct (last_message final) as [ai_msg|e].
  - rewrite bind_lift_Ok. unfold emit. rewrite bind_Ok, after_ret.
    unfold after. reflexivity.
  - unfold lift. rewrite bind_Raise. unfold after. cbn [fst snd].
    now rewrite app_nil_r.
Qed.

Lemma chat_turn_reply (line : string) evs text :
  in_list (lower (strip line)) ["exit"; "quit"] = false ->
  agent_logic llm_with_tools [HumanMessage (strip line)] = (evs, Ok [AIMessage text []]) ->
  contains "READY_TO_BOOK" text = false ->
  chat_turn llm_with_tools structured_llm similarity_search transit_db line =
  ((evs ++ [Printed (nl ++ "AI: " ++ text ++ " " ++ nl)])%list, Ok (Reply text)).
Proof.
  intros Hx Ha Hs. rewrite (chat_turn_invoke line Hx).
  change default_recursion_limit with (S (S 23)).
  rewrite (run_agent_final 23 _ _ _ Ha Hs), last_message_snoc. reflexivity.
Qed.

End GraphFacts.

(** ** The canned replies of the router *)

Section CannedReplies.
Import Py RagPipeline App Spec.

Variable llm_with_tools : list BaseMessage -> string * list ToolCall.
Variable structured_llm : list BaseMessage -> TicketBooking.
Variable similarity_search : list Document -> string -> nat -> list Document.
Variable transit_db : TransitRetriever.

Lemma booking_link_has_url : contains irctc_url booking_link_response = true.
Proof.
  unfold booking_link_response, irctc_url.
  match goal with
  | |- contains ?u (?a ++ nl ++ ?b ++ nl ++ nl ++ ?c) = true =>
      change (a ++ nl ++ b ++ nl ++ nl ++ c)
        with ((a ++ nl ++ "👉 **") ++ u ++ ("**" ++ nl ++ nl ++ c))
  end.
  apply contains_append.
Qed.

Lemma affirmative_not_exit (x : string) :
  In x affirmative -> in_list x ["exit"; "quit"] = false.
Proof.
  simpl. intros [<-|[<-|[<-|[<-|[<-|[<-|[]]]]]]]; reflexivity.
Qed.

Lemma negative_not_exit (x : string) :
  In x negative -> in_list x ["exit"; "quit"] = false.
Proof.
  simpl. intros [<-|[<-|[<-|[]]]]; reflexivity.
Qed.

(** C1, as amended.  Whenever the text of the latest message, lower-cased
    (the agent step does not trim it), is one of yes, y, book, book it,
    confirm, ok book, the agent step returns the fixed booking-link reply,
    whose text contains the IRCTC URL, without any event (no model call,
    no tool call), and the graph, under every recursion limit that leaves
    a step to spare after this one, ends the turn on that reply.  Trimming
    is the chat loop's: a line whose trimmed, lower-cased text is in the
    set gets this reply from the loop, which only prints it. *)
Theorem affirmative_gets_booking_link :
  (forall (state : AgentState) (last : BaseMessage) (limit : nat),
      last_message state = Ok last ->
      In (lower (content last)) affirmative ->
      agent_logic llm_with_tools state = ([], Ok [AIMessage booking_link_response []])
      /\ contains irctc_url booking_link_response = true
      /\ run llm_with_tools structured_llm similarity_search transit_db
             (S (S limit)) agent state
         = ([], Ok (state ++ [AIMessage booking_link_response []])%list))
  /\
  (forall line : string,
      In (strip (lower line)) affirmative ->
      chat_turn llm_with_tools structured_llm similarity_search transit_db line
      = ([Printed (nl ++ "AI: " ++ booking_link_response ++ " " ++ nl)],
         Ok (Reply booking_link_response))).
Proof.
  split.
  - intros state last limit Hl Hin.
    apply in_list_In in Hin.
    pose proof (agent_logic_affirmative llm_with_tools state last Hl Hin) as Ha.
    split; [exact Ha|]. split; [exact booking_link_has_url|].
    apply run_agent_final; [exact Ha | reflexivity].
  - intros line Hin. rewrite <- lower_strip in Hin.
    apply (chat_turn_reply llm_with_tools structured_llm similarity_search
             transit_db line []).
    + now apply affirmative_not_exit.
    + apply (agent_logic_affirmative llm_with_tools _ (HumanMessage (strip line)));
        [reflexivity | now apply in_list_In].
    + reflexivity.
Qed.

(** C7, as amended.  Whenever the text of the latest message, lower-cased
    (the agent step does not trim it), is one of no, nope, nah, the agent
    step returns the fixed decline reply without any event (no model call,
    no tool call), and the graph, under every recursion limit that leaves
    a step to spare after this one, ends the turn on that reply.  A line
    whose trimmed, lower-cased text is in the set gets this reply from the
    chat loop, which only prints it. *)
Theorem negative_gets_decline :
  (forall (state : AgentState) (last : BaseMessage) (limit : nat),
      last_message state = Ok last ->
      In (lower (content last)) negative ->
      agent_logic llm_with_tools state = ([], Ok [AIMessage decline_response []])
      /\ run llm_with_tools structured_llm similarity_search transit_db
             (S (S limit)) agent state
         = ([], Ok (state ++ [AIMessage decline_response []])%list))
  /\
  (forall line : string,
      In (strip (lower line)) negative ->
      chat_turn llm_with_tools structured_llm similarity_search transit_db line
      = ([Printed (nl ++ "AI: " ++ decline_response ++ " " ++ nl)],
         Ok (Reply decline_response))).
Proof.
  split.
  - intros state last limit Hl Hin.
    apply in_list_In in Hin.
    pose proof (agent_logic_negative llm_with_tools state last Hl Hin) as Ha.
    split; [exact Ha|].
    apply run_agent_final; [exact Ha | reflexivity].
  - intros line Hin. rewrite <- lower_strip in Hin.
    apply (chat_turn_reply llm_with_tools structured_llm similarity_search
             transit_db line []).
    + now apply negative_not_exit.
    + apply (agent_logic_negative llm_with_tools _ (HumanMessage (strip line)));
        [reflexivity | now apply in_list_In].
    + reflexivity.
Qed.

(** The edge out of the tool node leads to the top of the agent step, so
    the yes/no test is applied to the text of the last tool message: when
    that text, lower-cased, is an affirmative or a negative word, the
    agent step answers with the fixed reply and the model is not asked
    again. *)
Theorem tool_result_is_screened :
  forall (state : AgentState) (text call_id : string),
    (In (lower text) affirmative ->
     agent_logic llm_with_tools (state ++ [ToolMessage text call_id])
     = ([], Ok [AIMessage booking_link_response []]))
    /\ (In (lower text) negative ->
        agent_logic llm_with_tools (state ++ [ToolMessage text call_id])
        = ([], Ok [AIMessage decline_response []])).
Proof.
  intros state text call_id. split; intros Hin; apply in_list_In in Hin.
  - apply (agent_logic_affirmative llm_with_tools _ (ToolMessage text call_id));
      [apply last_message_snoc | exact Hin].
  - apply (agent_logic_negative llm_with_tools _ (ToolMessage text call_id));
      [apply last_message_snoc | exact Hin].
Qed.

End CannedReplies.

Section CannedRepliesExamples.
Import Py RagPipeline App Spec Examples.

(** The latest message is "YES"; the line typed is "  Book It ". *)
Lemma affirmative_gets_booking_link_witness :
  agent_logic greeter [HumanMessage "YES"] = ([], Ok [AIMessage booking_link_response []])
  /\ chat_turn greeter a_booking first_k not_built "  Book It "
     = ([Printed (nl ++ "AI: " ++ booking_link_response ++ " " ++ nl)],
        Ok (Reply booking_link_response)).
Proof.
  split.
  - apply (proj1 (affirmative_gets_booking_link greeter a_booking first_k not_built)
             [HumanMessage "YES"] (HumanMessage "YES") 0).
    + reflexivity.
    + simpl. tauto.
  - apply (proj2 (affirmative_gets_booking_link greeter a_booking first_k not_built)
             "  Book It ").
    simpl. tauto.
Defined.

(** C1 as the specification states it fails here.  A latest message
    " yes", with a leading space, satisfies its premise (trimmed and
    lower-cased it is "yes"), yet the agent step
    invokes the model, whichever model it is, and returns the model's
    reply. *)
Lemma untrimmed_yes_reaches_model :
  In (strip (lower " yes")) affirmative
  /\ forall llm : list BaseMessage -> string * list ToolCall,
      agent_logic llm [HumanMessage " yes"]
      = ([LLMInvoke [SystemMessage system_prompt; HumanMessage " yes"]],
         Ok [AIMessage (fst (llm [SystemMessage system_prompt; HumanMessage " yes"]))
                       (snd (llm [SystemMessage system_prompt; HumanMessage " yes"]))]).
Proof.
  split.
  - simpl. tauto.
  - intros llm. reflexivity.
Defined.

(** The latest message is "Nope"; the line typed is " NO". *)
Lemma negative_gets_decline_witness :
  agent_logic greeter [HumanMessage "Nope"] = ([], Ok [AIMessage decline_response []])
  /\ chat_turn greeter a_booking first_k not_built " NO"
     = ([Printed (nl ++ "AI: " ++ decline_response ++ " " ++ nl)],
        Ok (Reply decline_response)).
Proof.
  split.
  - apply (proj1 (negative_gets_decline greeter a_booking first_k not_built)
             [HumanMessage "Nope"] (HumanMessage "Nope") 0).
    + reflexivity.
    + simpl. tauto.
  - apply (proj2 (negative_gets_decline greeter a_booking first_k not_built) " NO").
    simpl. tauto.
Defined.

(** C7 as the specification states it fails here.  A latest message
    "no " followed by a space satisfies its premise, yet the agent step invokes the model and returns its reply. *)
Lemma untrimmed_no_reaches_model :
  In (strip (lower "no ")) negative
  /\ forall llm : list BaseMessage -> string * list ToolCall,
      agent_logic llm [HumanMessage "no "]
      = ([LLMInvoke [SystemMessage system_prompt; HumanMessage "no "]],
         Ok [AIMessage (fst (llm [SystemMessage system_prompt; HumanMessage "no "]))
                       (snd (llm [SystemMessage system_prompt; HumanMessage "no "]))]).
Proof.
  split.
  - simpl. tauto.
  - intros llm. reflexivity.
Defined.

(** The policy file holds the single word "No".  The model asks for the
    tool, the search returns "No", and the agent step, run again, declines
    without a second call to the model. *)
Lemma tool_result_is_screened_witness :
  agent_logic searches_once
    ([HumanMessage "Can I get a refund?";
      AIMessage "READY_TO_BOOK" [call_0]] ++ [ToolMessage "No" "call_0"])
  = ([], Ok [AIMessage decline_response []]).
Proof.
  apply (proj2 (tool_result_is_screened searches_once
                  [HumanMessage "Can I get a refund?"; AIMessage "READY_TO_BOOK" [call_0]]
                  "No" "call_0")).
  simpl. tauto.
Defined.

Example refund_question_declined :
  __init__ (policy_only "No") one_window "train_data.json" "policies.txt"
  = (["⚙️ Building RAG Pipeline...";
      "⚠️ Warning: train_data.json not found.";
      "✅ RAG Pipeline Ready. Loaded 1 chunks."], Ok curt_db)
  /\ chat_turn searches_once a_booking first_k curt_db "Can I get a refund?"
     = ([LLMInvoke [SystemMessage system_prompt; HumanMessage "Can I get a refund?"];
         ToolInvoke "trains to Delhi";
         Printed "🔎 Searching: trains to Delhi";
         Printed (nl ++ "AI: " ++ decline_response ++ " " ++ nl)],
        Ok (Reply decline_response)).
Proof. split; reflexivity. Qed.

End CannedRepliesExamples.

(** ** Routing on the model's answer *)

Section Routing.
Import Py RagPipeline App Spec.
Local Open Scope list_scope.

Variable llm_with_tools : list BaseMessage -> string * list ToolCall.
Variable structured_llm : list BaseMessage -> TicketBooking.
Variable similarity_search : list Document -> string -> nat -> list Document.
Variable transit_db : TransitRetriever.

Local Abbreviation search_text := (Spec.search_text similarity_search transit_db).
Local Abbreviation search_log := (Spec.search_log transit_db).
Local Abbreviation tool_messages := (Spec.tool_messages similarity_search transit_db).
Local Abbreviation tool_events := (Spec.tool_events transit_db).

Lemma search_eq (q : string) :
  search similarity_search transit_db q = (search_log q, Ok (search_text q)).
Proof.
  unfold search, search_log, search_text.
  destruct (retriever transit_db) as [r|]; reflexivity.
Qed.

Lemma search_railway_info_eq (q : string) :
  search_railway_info similarity_search transit_db q
  = (ToolInvoke q :: map Printed (search_log q), Ok (search_text q)).
Proof.
  unfold search_railway_info, emit. rewrite bind_Ok, search_eq. reflexivity.
Qed.

Lemma run_tools_calls (calls : list ToolCall) :
  mapM (fun call =>
          text <- search_railway_info similarity_search transit_db (query call) ;;
          ret (ToolMessage text (id call))) calls
  = (tool_events calls, Ok (tool_messages calls)).
Proof.
  induction calls as [|call calls IH]; [reflexivity|].
  cbn [mapM]. rewrite search_railway_info_eq, bind_Ok, after_ret, bind_Ok, IH.
  rewrite bind_Ok, after_ret. unfold after. cbn [fst snd].
  reflexivity.
Qed.

Lemma tool_node_eq (state : AgentState) (text : string) (calls : list ToolCall) :
  tool_node similarity_search transit_db (state ++ [AIMessage text calls])
  = (tool_events calls, Ok (tool_messages calls)).
Proof.
  unfold tool_node. rewrite rev_unit. cbn [find isinstance_AIMessage].
  apply run_tools_calls.
Qed.

(** After a tool round the last message is the answer to the last call. *)
Lemma last_tool_message (state : AgentState) (calls : list ToolCall) :
  calls <> [] ->
  exists call,
    In call calls
    /\ last_message (state ++ tool_messages calls)
       = Ok (ToolMessage (search_text (query call)) (id call)).
Proof.
  intros Hne. destruct (exists_last Hne) as [earlier [call ->]].
  exists call. split; [apply in_or_app; right; now left|].
  unfold Spec.tool_messages. rewrite map_app, app_assoc. apply last_message_snoc.
Qed.

Lemma booking_parser_eq (state : AgentState) :
  booking_parser structured_llm state
  = ([Printed "📝 Generating Final Ticket JSON..."; StructuredInvoke state],
     Ok [AIMessage (str_TicketBooking (structured_llm state)) []]).
Proof. reflexivity. Qed.


End Routing.

Section RoutingExamples.
Import Py RagPipeline App Spec Examples.
Local Open Scope list_scope.



End RoutingExamples.

(** ** The tool loop *)

Section ToolLoop.
Import Py RagPipeline App Spec Examples.
Local Open Scope list_scope.

Variable structured_llm : list BaseMessage -> TicketBooking.
Variable similarity_search : list Document -> string -> nat -> list Document.

Local Abbreviation run' := (run always_searches structured_llm similarity_search not_built).

Lemma llm_invocations_app (evs evs' : list event) :
  llm_invocations (evs ++ evs') = llm_invocations evs + llm_invocations evs'.
Proof. unfold llm_invocations. now rewrite filter_app, length_app. Qed.

Lemma step_agent_searches (state : AgentState) :
  open_ended state ->
  step always_searches structured_llm similarity_search not_built agent state
  = ([LLMInvoke (SystemMessage system_prompt :: state)],
     Ok (tools, state ++ [AIMessage "" [call_0]])).
Proof.
  intros [last [Hl [Ha Hn]]].
  pose proof (agent_logic_default always_searches state last Hl Ha Hn) as H.
  apply (step_agent always_searches structured_llm similarity_search not_built) in H.
  exact H.
Qed.

Lemma step_tools_not_built (state : AgentState) :
  step always_searches structured_llm similarity_search not_built tools
       (state ++ [AIMessage "" [call_0]])
  = ([ToolInvoke "trains to Delhi"],
     Ok (agent, (state ++ [AIMessage "" [call_0]])
                ++ [ToolMessage "Pipeline not initialized." "call_0"])).
Proof.
  unfold step. rewrite tool_node_eq, bind_Ok. apply after_ret.
Qed.

(** With a model that always asks for the tool, a run from the agent node
    or from the tool node uses up whatever limit it is given and ends in
    [GraphRecursionError]; the model has been called for every second
    node that ran. *)
Lemma tool_loop_hits_limit (limit : nat) :
  forall state : AgentState,
    open_ended state ->
    (exists evs, run' limit agent state = (evs, Raise GraphRecursionError)
                 /\ limit <= 2 * llm_invocations evs <= limit + 1)
    /\ (exists evs, run' limit tools (state ++ [AIMessage "" [call_0]])
                    = (evs, Raise GraphRecursionError)
                    /\ limit <= 2 * llm_invocations evs + 1 <= limit + 1).
Proof.
  induction limit as [|limit IH]; intros state Hopen.
  - split; exists []; split; try reflexivity; simpl; lia.
  - split.
    + destruct (proj2 (IH state Hopen)) as [evs [Hrun Hn]].
      exists (LLMInvoke (SystemMessage system_prompt :: state) :: evs).
      split.
      * rewrite (run_step _ _ _ _ limit agent state _ _ _
                   (fun E => ltac:(discriminate E)) (step_agent_searches state Hopen)).
        rewrite Hrun. reflexivity.
      * change (LLMInvoke (SystemMessage system_prompt :: state) :: evs)
          with ([LLMInvoke (SystemMessage system_prompt :: state)] ++ evs).
        rewrite llm_invocations_app. simpl. lia.
    + assert (Hopen' : open_ended ((state ++ [AIMessage "" [call_0]])
                                   ++ [ToolMessage "Pipeline not initialized." "call_0"])).
      { exists (ToolMessage "Pipeline not initialized." "call_0").
        rewrite last_message_snoc. repeat split; reflexivity. }
      destruct (proj1 (IH _ Hopen')) as [evs [Hrun Hn]].
      exists (ToolInvoke "trains to Delhi" :: evs).
      split.
      * rewrite (run_step _ _ _ _ limit tools _ _ _ _
                   (fun E => ltac:(discriminate E)) (step_tools_not_built state)).
        rewrite Hrun. reflexivity.
      * change (ToolInvoke "trains to Delhi" :: evs)
          with ([ToolInvoke "trains to Delhi"] ++ evs).
        rewrite llm_invocations_app. simpl. lia.
Qed.

End ToolLoop.

Section ToolLoopLimit.
Import Py RagPipeline App Spec Examples.



End ToolLoopLimit.

(** ** The document loader *)

Section Loader.
Import Py RagPipeline Spec.
Local Open Scope list_scope.

Lemma contains_head (n b : string) : contains n (n ++ b)%string = true.
Proof. apply contains_prefix, prefix_append. Qed.

Lemma contains_skip (n a b : string) :
  contains n b = true -> contains n (a ++ b)%string = true.
Proof.
  intros H. induction a as [|c a IH]; [exact H|].
  simpl. rewrite IH. apply orb_true_r.
Qed.

Ltac find_field :=
  first [ apply contains_head | apply contains_skip; find_field ].

Lemma train_text_well_formed (t : json) :
  well_formed t ->
  exists text, train_text t = Ok text /\ schedule_chunk_of t (schedule_document text).
Proof.
  intros [fields [-> Hall]].
  assert (H : forall key, In key required_fields ->
                          exists v, dict_get fields key = Some v).
  { intros key Hk. specialize (Hall key Hk).
    destruct (dict_get fields key) as [v|]; [now exists v | now elim Hall]. }
  destruct (H "name") as [name Hname]; [simpl; tauto|].
  destruct (H "train_no") as [train_no Htrain_no]; [simpl; tauto|].
  destruct (H "source") as [source Hsource]; [simpl; tauto|].
  destruct (H "destination") as [destination Hdestination]; [simpl; tauto|].
  destruct (H "price") as [price Hprice]; [simpl; tauto|].
  destruct (H "class") as [class Hclass]; [simpl; tauto|].
  destruct (H "days") as [days Hdays]; [simpl; tauto|].
  unfold train_text, getitem.
  rewrite Hname, Htrain_no, Hsource, Hdestination, Hprice, Hclass, Hdays.
  eexists. split; [reflexivity|].
  split; [reflexivity|].
  intros key Hk. cbn [page_content schedule_document].
  simpl in Hk.
  destruct Hk as [<-|[<-|[<-|[<-|[<-|[<-|[<-|[]]]]]]]].
  - exists name. split; [unfold getitem; now rewrite Hname | find_field].
  - exists train_no. split; [unfold getitem; now rewrite Htrain_no | find_field].
  - exists source. split; [unfold getitem; now rewrite Hsource | find_field].
  - exists destination. split; [unfold getitem; now rewrite Hdestination | find_field].
  - exists price. split; [unfold getitem; now rewrite Hprice | find_field].
  - exists class. split; [unfold getitem; now rewrite Hclass | find_field].
  - exists days. split; [unfold getitem; now rewrite Hdays | find_field].
Qed.

(** The loop of [_load_json_docs] on well-formed records. *)
Lemma load_loop_well_formed (records : list json) :
  Forall well_formed records ->
  exists docs,
    mapM (E := string)
         (fun t => text <- lift (train_text t) ;;
                   ret {| page_content := text; metadata := [("source", "schedule")] |})
         records
    = ([], Ok docs)
    /\ Forall2 schedule_chunk_of records docs.
Proof.
  induction 1 as [|t records Ht _ [docs [IH1 IH2]]].
  - exists []. split; [reflexivity | constructor].
  - destruct (train_text_well_formed t Ht) as [text [Htext Hchunk]].
    exists (schedule_document text :: docs). split.
    + cbn [mapM]. rewrite Htext, bind_lift_Ok, bind_ret_l, IH1. reflexivity.
    + now constructor.
Qed.

(** The loop stops at the first record that raises. *)
Lemma load_loop_raises (good rest : list json) (bad : json) (e : exn) :
  Forall well_formed good ->
  train_text bad = Raise e ->
  mapM (E := string)
       (fun t => text <- lift (train_text t) ;;
                 ret {| page_content := text; metadata := [("source", "schedule")] |})
       (good ++ bad :: rest)
  = ([], Raise e).
Proof.
  intros Hgood Hbad. induction Hgood as [|t good Ht _ IH].
  - cbn [app mapM]. now rewrite Hbad.
  - destruct (train_text_well_formed t Ht) as [text [Htext _]].
    cbn [app mapM]. rewrite Htext, bind_lift_Ok, bind_ret_l, IH. reflexivity.
Qed.

Variable fs : FileSystem.
Variable split_text : nat -> nat -> string -> list string.

Lemma load_json_docs_missing (self : TransitRetriever) :
  json_load fs (json_path self) = Raise FileNotFoundError ->
  _load_json_docs fs self = ([not_found_warning (json_path self)], Ok []).
Proof. intros H. unfold _load_json_docs. now rewrite H. Qed.

Lemma load_text_docs_missing (self : TransitRetriever) :
  read fs (policy_path self) = Raise FileNotFoundError ->
  _load_text_docs fs split_text self = ([not_found_warning (policy_path self)], Ok []).
Proof. intros H. unfold _load_text_docs. now rewrite H. Qed.

Lemma load_json_docs_well_formed (self : TransitRetriever) (records : list json) :
  json_load fs (json_path self) = Ok (JArr records) ->
  Forall well_formed records ->
  exists docs,
    _load_json_docs fs self = ([], Ok docs) /\ Forall2 schedule_chunk_of records docs.
Proof.
  intros Hload Hall.
  destruct (load_loop_well_formed records Hall) as [docs [Hloop Hdocs]].
  exists docs. split; [|exact Hdocs].
  unfold _load_json_docs. rewrite Hload, bind_lift_Ok. cbn [iterate].
  rewrite bind_lift_Ok, Hloop. reflexivity.
Qed.

Lemma load_json_docs_raises (self : TransitRetriever) good bad rest key :
  json_load fs (json_path self) = Ok (JArr (good ++ bad :: rest)) ->
  Forall well_formed good ->
  train_text bad = Raise (KeyError key) ->
  _load_json_docs fs self = ([], Raise (KeyError key)).
Proof.
  intros Hload Hgood Hbad.
  unfold _load_json_docs. rewrite Hload, bind_lift_Ok. cbn [iterate].
  rewrite bind_lift_Ok, (load_loop_raises good rest bad _ Hgood Hbad).
  reflexivity.
Qed.

(** C4.  When the schedule parses as a list of N records that each have
    the seven fields, and there is no policy file, the loader's combined
    sequence is exactly N chunks, one per record and in the records'
    order; each is tagged schedule and its text contains the record's
    name, train number, source, destination, price and class (and days)
    as the f-string renders them. *)
Theorem schedule_only_chunks :
  forall (self : TransitRetriever) (records : list json),
    json_load fs (json_path self) = Ok (JArr records) ->
    Forall well_formed records ->
    read fs (policy_path self) = Raise FileNotFoundError ->
    exists docs,
      all_docs fs split_text self = ([not_found_warning (policy_path self)], Ok docs)
      /\ length docs = length records
      /\ Forall2 schedule_chunk_of records docs.
Proof.
  intros self records Hload Hall Hpolicy.
  destruct (load_json_docs_well_formed self records Hload Hall) as [docs [Hdocs Hrel]].
  exists docs. split; [|split].
  - unfold all_docs.
    rewrite Hdocs, bind_Ok, after_nil, (load_text_docs_missing self Hpolicy), bind_Ok.
    rewrite after_ret. now rewrite app_nil_r.
  - symmetry. exact (Forall2_length Hrel).
  - exact Hrel.
Qed.

(** C5.  A missing schedule file makes [_load_json_docs] print a warning
    and return no chunk, and the combined sequence is then whatever the
    policy loader produces; a missing policy file makes [_load_text_docs]
    print a warning and return no chunk, and the combined sequence is then
    the schedule chunks.  Neither absence raises. *)
Theorem missing_file_is_not_fatal :
  forall self : TransitRetriever,
    (json_load fs (json_path self) = Raise FileNotFoundError ->
     _load_json_docs fs self = ([not_found_warning (json_path self)], Ok [])
     /\ all_docs fs split_text self
        = after [not_found_warning (json_path self)] (_load_text_docs fs split_text self))
    /\ (read fs (policy_path self) = Raise FileNotFoundError ->
        _load_text_docs fs split_text self = ([not_found_warning (policy_path self)], Ok [])
        /\ forall out docs,
            _load_json_docs fs self = (out, Ok docs) ->
            all_docs fs split_text self
            = (out ++ [not_found_warning (policy_path self)], Ok docs)).
Proof.
  intros self. split.
  - intros H. pose proof (load_json_docs_missing self H) as Hj.
    split; [exact Hj|].
    unfold all_docs. rewrite Hj, bind_Ok. f_equal.
    apply bind_ret_r.
  - intros H. pose proof (load_text_docs_missing self H) as Ht.
    split; [exact Ht|].
    intros out docs Hj. unfold all_docs.
    rewrite Hj, bind_Ok, Ht, bind_Ok, after_ret, app_nil_r.
    unfold after. reflexivity.
Qed.

(** The policy loader hands the whole text to a splitter set to windows
    of 500 characters with an overlap of 80, and returns one chunk per
    window, in the splitter's order, with the window as its text and the
    tag policy. *)
Theorem policy_windows_become_chunks :
  forall (self : TransitRetriever) (text : string),
    read fs (policy_path self) = Ok text ->
    _load_text_docs fs split_text self
    = ([], Ok (map policy_document (split_text 500 80 text))).
Proof.
  intros self text H. unfold _load_text_docs.
  rewrite H, bind_lift_Ok. unfold create_documents. cbn [flat_map].
  rewrite app_nil_r, map_map. reflexivity.
Qed.

End Loader.

(** ** Building and querying the index *)

Section Index.
Import Py RagPipeline App Spec.
Local Open Scope list_scope.

Variable fs : FileSystem.
Variable split_text : nat -> nat -> string -> list string.
Variable similarity_search : list Document -> string -> nat -> list Document.

(** What the build leaves in [self], by the combined chunk sequence. *)
Lemma build_pipeline_cases (self : TransitRetriever) out self' :
  _build_pipeline fs split_text self = (out, Ok self') ->
  exists out0 docs,
    all_docs fs split_text self = (out0, Ok docs)
    /\ ((docs = [] /\ self' = self)
        \/ (docs <> []
            /\ vectorstore self' = Some {| docstore := docs |}
            /\ retriever self' = Some {| vectorstore_of := {| docstore := docs |};
                                         search_kwargs_k := 3 |})).
Proof.
  unfold _build_pipeline, print, emit. rewrite bind_Ok.
  destruct (all_docs fs split_text self) as [out0 [docs|e]] eqn:Hdocs.
  - rewrite bind_Ok. intros H. exists out0, docs. split; [reflexivity|].
    destruct docs as [|d docs].
    + left. rewrite bind_Ok, after_ret in H. unfold after in H. cbn [fst snd] in H.
      split; [reflexivity|]. now inversion H.
    + right. rewrite bind_Ok, after_ret in H. unfold after in H. cbn [fst snd] in H.
      split; [discriminate|]. inversion H. subst self'. split; reflexivity.
  - rewrite bind_Raise. unfold after. cbn [fst snd]. discriminate.
Qed.

(** C3.  When the combined chunk sequence of the build is empty, the
    constructor returns a retriever with no vector store and no retriever
    object, and on it [search] returns the text "Pipeline not
    initialized." for every query: it prints nothing, calls nothing and
    raises nothing. *)
Theorem empty_index_returns_sentinel :
  forall (json_path policy_path : string) (out : list string),
    all_docs fs split_text (fresh json_path policy_path) = (out, Ok []) ->
    exists db,
      __init__ fs split_text json_path policy_path
      = ("⚙️ Building RAG Pipeline..." :: out ++ ["❌ No documents found to index."], Ok db)
      /\ vectorstore db = None
      /\ retriever db = None
      /\ forall query,
          search similarity_search db query = ([], Ok "Pipeline not initialized.").
Proof.
  intros json_path policy_path out Hdocs.
  exists (fresh json_path policy_path).
  split; [|split; [reflexivity|split; [reflexivity|]]].
  - unfold __init__. fold (fresh json_path policy_path).
    unfold _build_pipeline, print, emit.
    rewrite bind_Ok, Hdocs, bind_Ok, bind_Ok, after_ret.
    unfold after. cbn [fst snd]. reflexivity.
  - intros query. reflexivity.
Qed.

(** C10.  Let the schedule parse as a list in which some record is a
    dictionary that lacks one of the seven fields, the records before it
    being well formed.  Then [_load_json_docs] raises [KeyError] for a
    field that record lacks: no chunk is returned, not even for the
    records before it, and the record is not skipped.  The exception
    passes through [_build_pipeline] and the constructor, and at start-up
    it ends the process. *)
Theorem missing_field_stops_startup :
  forall (good rest : list json) (fields : list (string * json)) (key : string),
    json_load fs "train_data.json" = Ok (JArr (good ++ JObj fields :: rest)) ->
    Forall well_formed good ->
    In key required_fields ->
    dict_get fields key = None ->
    exists key',
      In key' required_fields
      /\ dict_get fields key' = None
      /\ _load_json_docs fs (fresh "train_data.json" "policies.txt")
         = ([], Raise (KeyError key'))
      /\ __init__ fs split_text "train_data.json" "policies.txt"
         = (["⚙️ Building RAG Pipeline..."], Raise (KeyError key'))
      /\ startup fs split_text
         = (["⚙️ Building RAG Pipeline..."], Exited (KeyError key')).
Proof.
  intros good rest fields key Hload Hgood Hkey Hnone.
  assert (Hbad : exists key',
             In key' required_fields /\ dict_get fields key' = None
             /\ train_text (JObj fields) = Raise (KeyError key')).
  { unfold train_text, getitem.
    destruct (dict_get fields "name") eqn:E1;
      [|exists "name"; repeat split; [simpl; tauto | exact E1]].
    destruct (dict_get fields "train_no") eqn:E2;
      [|exists "train_no"; repeat split; [simpl; tauto | exact E2]].
    destruct (dict_get fields "source") eqn:E3;
      [|exists "source"; repeat split; [simpl; tauto | exact E3]].
    destruct (dict_get fields "destination") eqn:E4;
      [|exists "destination"; repeat split; [simpl; tauto | exact E4]].
    destruct (dict_get fields "price") eqn:E5;
      [|exists "price"; repeat split; [simpl; tauto | exact E5]].
    destruct (dict_get fields "class") eqn:E6;
      [|exists "class"; repeat split; [simpl; tauto | exact E6]].
    destruct (dict_get fields "days") eqn:E7;
      [|exists "days"; repeat split; [simpl; tauto | exact E7]].
    exfalso. simpl in Hkey.
    destruct Hkey as [<-|[<-|[<-|[<-|[<-|[<-|[<-|[]]]]]]]]; congruence. }
  destruct Hbad as [key' [Hin [Hmiss Hraise]]].
  exists key'. split; [exact Hin|]. split; [exact Hmiss|].
  pose proof (load_json_docs_raises fs (fresh "train_data.json" "policies.txt")
                good (JObj fields) rest key' Hload Hgood Hraise) as Hj.
  assert (Hinit : __init__ fs split_text "train_data.json" "policies.txt"
                  = (["⚙️ Building RAG Pipeline..."], Raise (KeyError key'))).
  { unfold __init__. fold (fresh "train_data.json" "policies.txt").
    unfold _build_pipeline, print, emit. rewrite bind_Ok.
    unfold all_docs. rewrite Hj, !bind_Raise. reflexivity. }
  split; [exact Hj|]. split; [exact Hinit|].
  unfold startup. now rewrite Hinit.
Qed.

(** C6.  On a retriever whose build set up the index, [search] returns,
    for every query, the texts of the documents the store found for
    [k = 3], joined by a blank line, in the order the store gave them;
    under the store's contract these are at most three chunks of the
    index, nearest first. *)
Theorem search_returns_top_three :
  forall (similarity : string -> Document -> Z),
    store_contract similarity_search similarity ->
    forall (json_path policy_path : string) (out : list string) (db : TransitRetriever),
      __init__ fs split_text json_path policy_path = (out, Ok db) ->
      retriever db <> None ->
      forall query,
      exists (found : list Document) (store : FAISS),
        search similarity_search db query
        = ([("🔎 Searching: " ++ query)%string],
           Ok (join (nl ++ nl)%string (map page_content found)))
        /\ found = similarity_search (docstore store) query 3
        /\ vectorstore db = Some store
        /\ length found <= 3
        /\ incl found (docstore store)
        /\ nearest_first similarity query found.
Proof.
  intros similarity Hstore json_path policy_path out db Hinit Hbuilt query.
  destruct (build_pipeline_cases _ _ _ Hinit) as [out0 [docs [_ [[_ ->]|[_ [Hv Hr]]]]]].
  - now elim Hbuilt.
  - destruct (Hstore docs query 3) as [Hlen [Hincl Hsorted]].
    exists (similarity_search docs query 3), {| docstore := docs |}.
    split; [|repeat split; assumption].
    unfold search. rewrite Hr. reflexivity.
Qed.

End Index.

Section IndexExamples.
Import Py RagPipeline App Spec Examples.
Local Open Scope list_scope.

Lemma rajdhani_well_formed : well_formed rajdhani.
Proof.
  eexists. split; [reflexivity|].
  intros key Hk. simpl in Hk.
  destruct Hk as [<-|[<-|[<-|[<-|[<-|[<-|[<-|[]]]]]]]]; discriminate.
Qed.

Lemma shatabdi_well_formed : well_formed shatabdi.
Proof.
  eexists. split; [reflexivity|].
  intros key Hk. simpl in Hk.
  destruct Hk as [<-|[<-|[<-|[<-|[<-|[<-|[<-|[]]]]]]]]; discriminate.
Qed.

(** Neither file exists. *)
Lemma empty_index_returns_sentinel_witness :
  exists db,
    __init__ no_files one_window "train_data.json" "policies.txt"
    = (["⚙️ Building RAG Pipeline...";
        "⚠️ Warning: train_data.json not found.";
        "⚠️ Warning: policies.txt not found.";
        "❌ No documents found to index."], Ok db)
    /\ vectorstore db = None
    /\ retriever db = None
    /\ forall query, search first_k db query = ([], Ok "Pipeline not initialized.").
Proof.
  exact (empty_index_returns_sentinel no_files one_window first_k
           "train_data.json" "policies.txt"
           ["⚠️ Warning: train_data.json not found.";
            "⚠️ Warning: policies.txt not found."]
           eq_refl).
Defined.

(** A schedule of two records and no policy file. *)
Lemma schedule_only_chunks_witness :
  exists docs,
    all_docs (schedule_only (JArr [rajdhani; shatabdi])) one_window not_built
    = (["⚠️ Warning: policies.txt not found."], Ok docs)
    /\ length docs = 2
    /\ Forall2 schedule_chunk_of [rajdhani; shatabdi] docs.
Proof.
  apply (schedule_only_chunks (schedule_only (JArr [rajdhani; shatabdi])) one_window
           not_built [rajdhani; shatabdi]).
  - reflexivity.
  - repeat constructor; [exact rajdhani_well_formed | exact shatabdi_well_formed].
  - reflexivity.
Defined.

(** Only the policy exists; then only the schedule exists. *)
Lemma missing_file_is_not_fatal_witness :
  all_docs (policy_only "Tickets are refundable up to 4 hours before departure.")
           one_window not_built
  = (["⚠️ Warning: train_data.json not found."],
     Ok [{| page_content := "Tickets are refundable up to 4 hours before departure.";
            metadata := [("source", "policy")] |}])
  /\ all_docs (schedule_only (JArr [rajdhani])) one_window not_built
     = (["⚠️ Warning: policies.txt not found."],
        Ok [{| page_content :=
                 "Train Rajdhani Express (12951) travels from Mumbai to Delhi. Price: 2500. Class: 3A. Days: ['Mon', 'Thu'].";
               metadata := [("source", "schedule")] |}]).
Proof.
  split.
  - destruct (proj1 (missing_file_is_not_fatal
                       (policy_only "Tickets are refundable up to 4 hours before departure.")
                       one_window not_built) eq_refl) as [_ H].
    rewrite H. reflexivity.
  - destruct (proj2 (missing_file_is_not_fatal (schedule_only (JArr [rajdhani]))
                       one_window not_built) eq_refl) as [_ H].
    exact (H [] _ eq_refl).
Defined.

(** The second of three records has no price. *)
Lemma missing_field_stops_startup_witness :
  exists key',
    In key' required_fields
    /\ dict_get [("name", JStr "Duronto Express"); ("train_no", JInt 12213);
                 ("source", JStr "Pune"); ("destination", JStr "Delhi");
                 ("class", JStr "2A"); ("days", JStr "Tue")] key' = None
    /\ _load_json_docs (schedule_only (JArr [rajdhani; no_price; shatabdi]))
                       (fresh "train_data.json" "policies.txt")
       = ([], Raise (KeyError key'))
    /\ __init__ (schedule_only (JArr [rajdhani; no_price; shatabdi])) one_window
                "train_data.json" "policies.txt"
       = (["⚙️ Building RAG Pipeline..."], Raise (KeyError key'))
    /\ startup (schedule_only (JArr [rajdhani; no_price; shatabdi])) one_window
       = (["⚙️ Building RAG Pipeline..."], Exited (KeyError key')).
Proof.
  apply (missing_field_stops_startup
           (schedule_only (JArr [rajdhani; no_price; shatabdi])) one_window
           [rajdhani] [shatabdi] _ "price").
  - reflexivity.
  - repeat constructor. exact rajdhani_well_formed.
  - simpl. tauto.
  - reflexivity.
Defined.

Lemma In_firstn {A} (k : nat) (l : list A) (x : A) : In x (firstn k l) -> In x l.
Proof.
  revert l. induction k as [|k IH]; intros [|a l]; simpl; try tauto.
  intros [->|H]; [now left | right; now apply IH].
Qed.

Lemma StronglySorted_app {A} (R : A -> A -> Prop) (l1 l2 : list A) :
  StronglySorted R l1 -> StronglySorted R l2 ->
  (forall a b, In a l1 -> In b l2 -> R a b) ->
  StronglySorted R (l1 ++ l2).
Proof.
  intros H1 H2 H12. induction H1 as [|a l1 H1 IH Ha]; [exact H2|].
  simpl. constructor.
  - apply IH. intros x y Hx Hy. apply H12; [now right | exact Hy].
  - apply Forall_app. split; [exact Ha|].
    apply Forall_forall. intros y Hy. apply H12; [now left | exact Hy].
Qed.

Lemma StronglySorted_firstn {A} (R : A -> A -> Prop) (k : nat) (l : list A) :
  StronglySorted R l -> StronglySorted R (firstn k l).
Proof.
  intros H. revert k. induction H as [|a l H IH Ha]; intros [|k]; simpl; try constructor.
  - apply IH.
  - apply Forall_forall. intros y Hy.
    rewrite Forall_forall in Ha. apply Ha. revert Hy. apply In_firstn.
Qed.

Lemma StronglySorted_uniform {A} (R : A -> A -> Prop) (l : list A) :
  (forall a b, In a l -> In b l -> R a b) -> StronglySorted R l.
Proof.
  induction l as [|a l IH]; intros H; constructor.
  - apply IH. intros x y Hx Hy. apply H; now right.
  - apply Forall_forall. intros y Hy. apply H; [now left | now right].
Qed.

Lemma exact_first_contract : store_contract exact_first exact_similarity.
Proof.
  intros docs q k. unfold exact_first. split; [|split].
  - apply firstn_le_length.
  - intros d Hd. apply In_firstn in Hd. apply in_app_or in Hd.
    destruct Hd as [Hd|Hd]; apply filter_In in Hd; tauto.
  - apply StronglySorted_firstn, StronglySorted_app.
    + apply StronglySorted_uniform. intros a b Ha Hb.
      apply filter_In in Ha. apply filter_In in Hb.
      unfold exact_similarity. destruct Ha as [_ ->]. destruct Hb as [_ ->]. lia.
    + apply StronglySorted_uniform. intros a b Ha Hb.
      apply filter_In in Ha. apply filter_In in Hb.
      unfold exact_similarity.
      destruct Ha as [_ Ha]. destruct Hb as [_ Hb].
      apply negb_true_iff in Ha. apply negb_true_iff in Hb. rewrite Ha, Hb. lia.
    + intros a b Ha Hb. apply filter_In in Ha. apply filter_In in Hb.
      unfold exact_similarity.
      destruct Ha as [_ ->]. destruct (is_exact q b); lia.
Qed.

(** An index of two schedule chunks, asked about fares. *)
Lemma search_returns_top_three_witness :
  exists db found store,
    __init__ (schedule_only (JArr [rajdhani; shatabdi])) one_window
             "train_data.json" "policies.txt"
    = (["⚙️ Building RAG Pipeline...";
        "⚠️ Warning: policies.txt not found.";
        "✅ RAG Pipeline Ready. Loaded 2 chunks."], Ok db)
    /\ search exact_first db "fares to Delhi"
       = (["🔎 Searching: fares to Delhi"],
          Ok (join (nl ++ nl)%string (map page_content found)))
    /\ found = exact_first (docstore store) "fares to Delhi" 3
    /\ vectorstore db = Some store
    /\ length found <= 3
    /\ incl found (docstore store)
    /\ nearest_first exact_similarity "fares to Delhi" found.
Proof.
  eexists.
  destruct (search_returns_top_three
              (schedule_only (JArr [rajdhani; shatabdi])) one_window exact_first
              exact_similarity exact_first_contract
              "train_data.json" "policies.txt" _ _ eq_refl
              ltac:(discriminate) "fares to Delhi")
    as [found [store H]].
  exists found, store. split; [reflexivity | exact H].
Defined.

(** A policy text of one window. *)
Lemma policy_windows_become_chunks_witness :
  _load_text_docs (policy_only "Tickets are refundable up to 4 hours before departure.")
                  one_window not_built
  = ([], Ok [policy_document "Tickets are refundable up to 4 hours before departure."]).
Proof.
  exact (policy_windows_become_chunks
           (policy_only "Tickets are refundable up to 4 hours before departure.")
           one_window not_built _ eq_refl).
Defined.

End IndexExamples.

(** ** What the schedule loader returns and what it raises *)

Section LoaderOutcomes.
Import Py RagPipeline App Spec.
Local Open Scope list_scope.

(** A record the f-string accepts has the seven fields. *)
Lemma train_text_Ok_well_formed (t : json) (text : string) :
  train_text t = Ok text -> well_formed t.
Proof.
  destruct t as [| | | | |items|fields]; try discriminate.
  unfold train_text, getitem. intros H.
  destruct (dict_get fields "name") eqn:E1; [|discriminate].
  destruct (dict_get fields "train_no") eqn:E2; [|discriminate].
  destruct (dict_get fields "source") eqn:E3; [|discriminate].
  destruct (dict_get fields "destination") eqn:E4; [|discriminate].
  destruct (dict_get fields "price") eqn:E5; [|discriminate].
  destruct (dict_get fields "class") eqn:E6; [|discriminate].
  destruct (dict_get fields "days") eqn:E7; [|discriminate].
  exists fields. split; [reflexivity|].
  intros key Hk. simpl in Hk.
  destruct Hk as [<-|[<-|[<-|[<-|[<-|[<-|[<-|[]]]]]]]]; congruence.
Qed.

(** What the f-string can raise: [TypeError] on a record that is not a
    dictionary, [KeyError] for a field the dictionary lacks. *)
Lemma train_text_Raise (t : json) (e : exn) :
  train_text t = Raise e ->
  e = TypeError \/ exists key, In key required_fields /\ e = KeyError key.
Proof.
  destruct t as [| | | | |items|fields];
    try (intros H; left; now inversion H).
  unfold train_text, getitem. intros H. right.
  destruct (dict_get fields "name");
    [|exists "name"; split; [simpl; tauto | now inversion H]].
  destruct (dict_get fields "train_no");
    [|exists "train_no"; split; [simpl; tauto | now inversion H]].
  destruct (dict_get fields "source");
    [|exists "source"; split; [simpl; tauto | now inversion H]].
  destruct (dict_get fields "destination");
    [|exists "destination"; split; [simpl; tauto | now inversion H]].
  destruct (dict_get fields "price");
    [|exists "price"; split; [simpl; tauto | now inversion H]].
  destruct (dict_get fields "class");
    [|exists "class"; split; [simpl; tauto | now inversion H]].
  destruct (dict_get fields "days");
    [|exists "days"; split; [simpl; tauto | now inversion H]].
  discriminate.
Qed.

(** The loop prints nothing; it returns chunks when every item is well
    formed, and otherwise raises what the f-string raises on the first
    item that is not. *)
Lemma load_loop_cases (items : list json) :
  (Forall well_formed items /\ exists docs, load_loop items = ([], Ok docs))
  \/ (~ Forall well_formed items
      /\ exists e, load_loop items = ([], Raise e)
                   /\ (e = TypeError \/ exists key, In key required_fields /\ e = KeyError key)).
Proof.
  induction items as [|t items IH].
  - left. split; [constructor | now exists []].
  - unfold load_loop. cbn [mapM]. fold (load_loop items).
    destruct (train_text t) as [text|e] eqn:Ht.
    + rewrite bind_lift_Ok, bind_ret_l.
      pose proof (train_text_Ok_well_formed t text Ht) as Hwf.
      destruct IH as [[Hall [docs Hdocs]]|[Hnot [e [He Hkind]]]].
      * left. split; [now constructor|]. rewrite Hdocs. eexists. reflexivity.
      * right. split; [intros H; inversion H; contradiction|].
        exists e. rewrite He. split; [reflexivity | exact Hkind].
    + right. split.
      * intros H. inversion H as [|? ? Hwf _]; subst.
        destruct (train_text_well_formed t Hwf) as [text [Htext _]]. congruence.
      * exists e. split; [reflexivity | exact (train_text_Raise t e Ht)].
Qed.

Lemma iterate_Raise (data : json) (e : exn) : iterate data = Raise e -> e = TypeError.
Proof. destruct data; intros H; now inversion H. Qed.

Variable fs : FileSystem.

(** [_load_json_docs] once the file has been read and parsed. *)
Lemma load_json_docs_parsed (self : TransitRetriever) (data : json) :
  json_load fs (json_path self) = Ok data ->
  _load_json_docs fs self
  = match iterate data with
    | Ok items => load_loop items
    | Raise e => ([], Raise e)
    end.
Proof.
  intros H. unfold _load_json_docs. rewrite H, bind_lift_Ok.
  destruct (iterate data) as [items|e] eqn:Hi.
  - rewrite bind_lift_Ok. fold (load_loop items).
    destruct (load_loop_cases items) as [[_ [docs ->]]|[_ [e [-> Hkind]]]];
      [reflexivity|].
    destruct Hkind as [->|[key [_ ->]]]; reflexivity.
  - rewrite (iterate_Raise data e Hi). reflexivity.
Qed.

Variable split_text : nat -> nat -> string -> list string.

(** [_load_json_docs] returns a list of chunks exactly when the schedule
    file is missing, or it parses to a value whose items (the elements of
    a list, the keys of a dictionary, the characters of a string) are all
    dictionaries with the seven fields.  In every other case it raises. *)
Theorem load_json_docs_succeeds_iff :
  forall self : TransitRetriever,
    (exists out docs, _load_json_docs fs self = (out, Ok docs))
    <-> (json_load fs (json_path self) = Raise FileNotFoundError
         \/ exists data items,
             json_load fs (json_path self) = Ok data
             /\ iterate data = Ok items
             /\ Forall well_formed items).
Proof.
  intros self. split.
  - intros [out [docs H]].
    destruct (json_load fs (json_path self)) as [data|e] eqn:Hload.
    + right. rewrite (load_json_docs_parsed self data Hload) in H.
      destruct (iterate data) as [items|e] eqn:Hi; [|discriminate].
      exists data, items. split; [reflexivity|]. split; [exact Hi|].
      destruct (load_loop_cases items) as [[Hall _]|[_ [e [He _]]]];
        [exact Hall | congruence].
    + unfold _load_json_docs in H. rewrite Hload in H.
      destruct e; try discriminate. now left.
  - intros [Hmiss|[data [items [Hload [Hi Hall]]]]].
    + rewrite (load_json_docs_missing fs self Hmiss). now eexists; eexists.
    + rewrite (load_json_docs_parsed self data Hload), Hi.
      destruct (load_loop_cases items) as [[_ [docs ->]]|[Hnot _]];
        [now eexists; eexists | contradiction].
Qed.

(** When [_load_json_docs] raises it has printed nothing, the exception
    is never [FileNotFoundError], and it is either the one the read or the
    parse of the file raised, or [TypeError] (the data or a record has the
    wrong type), or [KeyError] for one of the seven fields. *)
Theorem load_json_docs_exceptions :
  forall (self : TransitRetriever) (out : list string) (e : exn),
    _load_json_docs fs self = (out, Raise e) ->
    out = []
    /\ e <> FileNotFoundError
    /\ (json_load fs (json_path self) = Raise e
        \/ e = TypeError
        \/ exists key, In key required_fields /\ e = KeyError key).
Proof.
  intros self out e H.
  destruct (json_load fs (json_path self)) as [data|e0] eqn:Hload.
  - rewrite (load_json_docs_parsed self data Hload) in H.
    destruct (iterate data) as [items|e1] eqn:Hi.
    + destruct (load_loop_cases items) as [[_ [docs Hd]]|[_ [e1 [He Hkind]]]];
        [congruence|].
      rewrite He in H. inversion H; subst.
      split; [reflexivity|]. split; [|now right].
      destruct Hkind as [->|[key [_ ->]]]; discriminate.
    + inversion H; subst. rewrite (iterate_Raise data e Hi).
      split; [reflexivity|]. split; [discriminate | right; now left].
  - unfold _load_json_docs in H. rewrite Hload in H.
    destruct e0; inversion H; subst;
      (split; [reflexivity|]; split; [discriminate | now left]).
Qed.

(** Only a missing file is forgiven.  Any other failure to read or parse
    the schedule ends start-up with that exception, before the policy file
    is looked at; any other failure to read the policy file ends start-up
    with that exception once the schedule has loaded. *)
Theorem only_missing_files_are_forgiven :
  forall e : exn,
    e <> FileNotFoundError ->
    (json_load fs "train_data.json" = Raise e ->
     startup fs split_text = (["⚙️ Building RAG Pipeline..."], Exited e))
    /\ (read fs "policies.txt" = Raise e ->
        forall out docs,
          _load_json_docs fs (fresh "train_data.json" "policies.txt") = (out, Ok docs) ->
          startup fs split_text = ("⚙️ Building RAG Pipeline..." :: out, Exited e)).
Proof.
  intros e Hne. split.
  - intros Hload.
    assert (Hj : _load_json_docs fs (fresh "train_data.json" "policies.txt")
                 = ([], Raise e)).
    { unfold _load_json_docs. cbn [json_path fresh]. rewrite Hload.
      destruct e; try reflexivity. now elim Hne. }
    unfold startup, __init__. fold (fresh "train_data.json" "policies.txt").
    unfold _build_pipeline, print, emit, all_docs.
    rewrite bind_Ok, Hj, !bind_Raise. reflexivity.
  - intros Hread out docs Hj.
    assert (Ht : _load_text_docs fs split_text (fresh "train_data.json" "policies.txt")
                 = ([], Raise e)).
    { unfold _load_text_docs. cbn [policy_path fresh]. rewrite Hread.
      destruct e; try reflexivity. now elim Hne. }
    unfold startup, __init__. fold (fresh "train_data.json" "policies.txt").
    unfold _build_pipeline, print, emit, all_docs.
    rewrite bind_Ok, Hj, bind_Ok, Ht, !bind_Raise.
    unfold after. cbn [fst snd]. now rewrite app_nil_r.
Qed.

End LoaderOutcomes.

(** ** What the index holds and what a search returns *)

Section IndexContents.
Import Py RagPipeline App Spec.
Local Open Scope list_scope.

Variable fs : FileSystem.
Variable split_text : nat -> nat -> string -> list string.
Variable similarity_search : list Document -> string -> nat -> list Document.

Lemma prefix_refl (s : string) : String.prefix s s = true.
Proof.
  induction s as [|c s IH]; [reflexivity|].
  simpl. destruct (ascii_dec c c) as [_|ne]; [exact IH | now elim ne].
Qed.

(** Every part of a joined text occurs in it. *)
Lemma join_contains (sep x : string) (parts : list string) :
  In x parts -> contains x (join sep parts) = true.
Proof.
  induction parts as [|p parts IH]; [intros []|].
  intros Hin. destruct parts as [|p' parts'].
  - destruct Hin as [->|[]]. apply contains_prefix, prefix_refl.
  - change (join sep (p :: p' :: parts'))
      with (p ++ sep ++ join sep (p' :: parts'))%string.
    destruct Hin as [->|Hin].
    + apply contains_head.
    + apply contains_skip, contains_skip, IH, Hin.
Qed.

(** When the two loaders return chunks and there is at least one, the
    build sets up the index over the schedule chunks followed by the
    policy chunks, in the loaders' order and with nothing dropped or
    merged, keeps both paths, asks for three results per query, and
    closes its log with the number of chunks. *)
Theorem built_index_holds_all_chunks :
  forall (json_path policy_path : string) (out_json out_text : list string)
         (train_docs policy_docs : list Document),
    _load_json_docs fs (fresh json_path policy_path) = (out_json, Ok train_docs) ->
    _load_text_docs fs split_text (fresh json_path policy_path) = (out_text, Ok policy_docs) ->
    train_docs ++ policy_docs <> [] ->
    __init__ fs split_text json_path policy_path
    = ("⚙️ Building RAG Pipeline..." :: out_json ++ out_text
         ++ [("✅ RAG Pipeline Ready. Loaded "
              ++ str_int (Z.of_nat (length train_docs + length policy_docs))
              ++ " chunks.")%string],
       Ok {| json_path := json_path;
             policy_path := policy_path;
             vectorstore := Some {| docstore := train_docs ++ policy_docs |};
             retriever := Some {| vectorstore_of := {| docstore := train_docs ++ policy_docs |};
                                  search_kwargs_k := 3 |} |}).
Proof.
  intros jp pp out_json out_text train_docs policy_docs Hj Ht Hne.
  unfold __init__. fold (fresh jp pp).
  unfold _build_pipeline, print, emit, all_docs.
  rewrite bind_Ok, Hj, bind_Ok, Ht, bind_Ok, after_ret.
  unfold after at 2. cbn [fst snd]. rewrite bind_Ok.
  destruct (train_docs ++ policy_docs) as [|d docs] eqn:Hdocs; [now elim Hne|].
  rewrite bind_Ok, after_ret. unfold after. cbn [fst snd json_path policy_path fresh].
  rewrite <- Hdocs, length_app, <- app_assoc. reflexivity.
Qed.

(** On a built index the text [search] returns contains the text of every
    chunk the store found, whatever the store; when the store finds
    nothing it is the empty text, not the "not initialized" message. *)
Theorem search_result_contains_every_hit :
  forall (db : TransitRetriever) (r : VectorStoreRetriever) (q : string),
    retriever db = Some r ->
    exists text,
      search similarity_search db q = ([("🔎 Searching: " ++ q)%string], Ok text)
      /\ (forall d, In d (invoke similarity_search r q) ->
                    contains (page_content d) text = true)
      /\ (invoke similarity_search r q = [] -> text = EmptyString).
Proof.
  intros db r q Hr.
  exists (join (nl ++ nl)%string (map page_content (invoke similarity_search r q))).
  split; [|split].
  - unfold search. rewrite Hr. reflexivity.
  - intros d Hd. apply join_contains, in_map, Hd.
  - intros ->. reflexivity.
Qed.

End IndexContents.

Section LoaderOutcomesExamples.
Import Py RagPipeline App Spec Examples.
Local Open Scope list_scope.

(** A schedule of two well-formed records loads. *)
Lemma load_json_docs_succeeds_iff_witness :
  exists out docs,
    _load_json_docs (schedule_only (JArr [rajdhani; shatabdi])) not_built = (out, Ok docs).
Proof.
  apply (proj2 (load_json_docs_succeeds_iff
                  (schedule_only (JArr [rajdhani; shatabdi])) not_built)).
  right. exists (JArr [rajdhani; shatabdi]), [rajdhani; shatabdi].
  repeat split; repeat constructor;
    [exact rajdhani_well_formed | exact shatabdi_well_formed].
Defined.

(** The schedule is a list whose second record has no price. *)
Lemma load_json_docs_exceptions_witness :
  [] = ([] : list string)
  /\ KeyError "price" <> FileNotFoundError
  /\ (json_load (schedule_only (JArr [rajdhani; no_price])) "train_data.json"
      = Raise (KeyError "price")
      \/ KeyError "price" = TypeError
      \/ exists key, In key required_fields /\ KeyError "price" = KeyError key).
Proof.
  exact (load_json_docs_exceptions (schedule_only (JArr [rajdhani; no_price]))
           not_built [] (KeyError "price") eq_refl).
Defined.

(** The schedule file is not JSON. *)
Lemma only_missing_files_are_forgiven_witness :
  startup garbled_schedule one_window
  = (["⚙️ Building RAG Pipeline..."], Exited JSONDecodeError).
Proof.
  apply (proj1 (only_missing_files_are_forgiven garbled_schedule one_window
                  JSONDecodeError ltac:(discriminate))).
  reflexivity.
Defined.

(** One schedule record and a policy text of two sentences. *)
Lemma built_index_holds_all_chunks_witness :
  __init__ (both_files (JArr [rajdhani]) "Refunds take 5 days. Pets travel free.")
           two_windows "train_data.json" "policies.txt"
  = (["⚙️ Building RAG Pipeline..."; "✅ RAG Pipeline Ready. Loaded 3 chunks."],
     Ok {| json_path := "train_data.json";
           policy_path := "policies.txt";
           vectorstore :=
             Some {| docstore :=
                       [schedule_document
                          "Train Rajdhani Express (12951) travels from Mumbai to Delhi. Price: 2500. Class: 3A. Days: ['Mon', 'Thu'].";
                        policy_document "Refunds take 5 days.";
                        policy_document " Pets travel free."] |};
           retriever :=
             Some {| vectorstore_of :=
                       {| docstore :=
                            [schedule_document
                               "Train Rajdhani Express (12951) travels from Mumbai to Delhi. Price: 2500. Class: 3A. Days: ['Mon', 'Thu'].";
                             policy_document "Refunds take 5 days.";
                             policy_document " Pets travel free."] |};
                     search_kwargs_k := 3 |} |}).
Proof.
  exact (built_index_holds_all_chunks
           (both_files (JArr [rajdhani]) "Refunds take 5 days. Pets travel free.")
           two_windows "train_data.json" "policies.txt" [] []
           _ _ eq_refl eq_refl ltac:(discriminate)).
Defined.

(** The one-chunk index of the policy "No", asked about refunds. *)
Lemma search_result_contains_every_hit_witness :
  exists text,
    search first_k curt_db "refunds" = (["🔎 Searching: refunds"], Ok text)
    /\ (forall d, In d [policy_document "No"] -> contains (page_content d) text = true)
    /\ ([policy_document "No"] = [] -> text = EmptyString).
Proof.
  exact (search_result_contains_every_hit first_k curt_db _ "refunds" eq_refl).
Defined.

End LoaderOutcomesExamples.

(** ** Whole turns *)

Section TurnFacts.
Import Py RagPipeline App Spec.
Local Open Scope list_scope.

Variable llm_with_tools : list BaseMessage -> string * list ToolCall.
Variable structured_llm : list BaseMessage -> TicketBooking.
Variable similarity_search : list Document -> string -> nat -> list Document.
Variable transit_db : TransitRetriever.

Local Abbreviation run' := (run llm_with_tools structured_llm similarity_search transit_db).
Local Abbreviation produced' :=
  (produced llm_with_tools structured_llm similarity_search transit_db).
Local Abbreviation conversation_after' :=
  (conversation_after llm_with_tools structured_llm similarity_search transit_db).
Local Abbreviation inputs_match' :=
  (inputs_match llm_with_tools structured_llm similarity_search transit_db).
Local Abbreviation final_matches' :=
  (final_matches llm_with_tools structured_llm similarity_search transit_db).

Lemma last_message_nonempty (state : AgentState) :
  state <> [] -> exists last, last_message state = Ok last.
Proof.
  intros Hne. destruct (exists_last Hne) as [prefix [m ->]].
  exists m. apply last_message_snoc.
Qed.

(** On a conversation that is not empty the agent step answers with one
    assistant message: a fixed reply, with no event, or the model's, with
    the one call that produced it. *)
Lemma agent_logic_answers (state : AgentState) :
  state <> [] ->
  exists evs text calls,
    agent_logic llm_with_tools state = (evs, Ok [AIMessage text calls])
    /\ ((evs = [] /\ calls = [])
        \/ (evs = [LLMInvoke (SystemMessage system_prompt :: state)]
            /\ calls = snd (llm_with_tools (SystemMessage system_prompt :: state)))).
Proof.
  intros Hne. destruct (last_message_nonempty state Hne) as [last Hl].
  destruct (in_list (lower (content last)) affirmative) eqn:Ha.
  - exists [], booking_link_response, []. split; [|now left].
    exact (agent_logic_affirmative llm_with_tools state last Hl Ha).
  - destruct (in_list (lower (content last)) negative) eqn:Hn.
    + exists [], decline_response, []. split; [|now left].
      exact (agent_logic_negative llm_with_tools state last Hl Hn).
    + eexists. eexists. eexists. split; [|right; split; reflexivity].
      exact (agent_logic_default llm_with_tools state last Hl Ha Hn).
Qed.

Lemma run_agent_unfold (limit : nat) (state : AgentState) evs m :
  agent_logic llm_with_tools state = (evs, Ok [m]) ->
  run' (S limit) agent state = after evs (run' limit (next_node m) (state ++ [m])).
Proof.
  intros H.
  apply (step_agent llm_with_tools structured_llm similarity_search transit_db) in H.
  exact (run_step _ _ _ _ limit agent state _ _ _ (fun E => ltac:(discriminate E)) H).
Qed.

Lemma run_tools_unfold (limit : nat) (state : AgentState) text calls :
  run' (S limit) tools (state ++ [AIMessage text calls])
  = after (tool_events transit_db calls)
      (run' limit agent ((state ++ [AIMessage text calls])
                         ++ tool_messages similarity_search transit_db calls)).
Proof.
  apply run_step; [discriminate|].
  unfold step. rewrite tool_node_eq, bind_Ok. apply after_ret.
Qed.

Lemma run_booking_unfold (limit : nat) (state : AgentState) :
  run' (S (S limit)) booking state
  = ([Printed "📝 Generating Final Ticket JSON..."; StructuredInvoke state],
     Ok (state ++ [AIMessage (str_TicketBooking (structured_llm state)) []])).
Proof.
  rewrite (run_step _ _ _ _ (S limit) booking state
             [Printed "📝 Generating Final Ticket JSON..."; StructuredInvoke state]
             END (state ++ [AIMessage (str_TicketBooking (structured_llm state)) []])
             (fun E => ltac:(discriminate E))).
  - rewrite run_END. apply after_ret.
  - unfold step. rewrite booking_parser_eq, bind_Ok. apply after_ret.
Qed.

Lemma ends_answered_trans (start middle final : AgentState) :
  (exists suffix, middle = start ++ suffix) ->
  ends_answered middle final -> ends_answered start final.
Proof.
  intros [suffix ->] [[suffix' ->] Hlast]. split; [|exact Hlast].
  exists (suffix ++ suffix'). now rewrite app_assoc.
Qed.

Lemma after_eq {A} (evs evs' : list event) (r : result A) (m : eff event A) :
  m = (evs', r) -> after evs m = (evs ++ evs', r).
Proof. now intros ->. Qed.

Lemma conversation_after_cons (state : AgentState) (ev : event) (evs : list event) :
  conversation_after' state (ev :: evs) = conversation_after' (state ++ produced' ev) evs.
Proof. unfold conversation_after. cbn [flat_map]. now rewrite app_assoc. Qed.

Lemma conversation_after_nil (state : AgentState) : conversation_after' state [] = state.
Proof. unfold conversation_after. apply app_nil_r. Qed.

Lemma inputs_match_nil (state : AgentState) : inputs_match' state [].
Proof. split; intros [|ev before] input rest H; discriminate H. Qed.

(** One more event in front: its own input is checked against [state],
    those of the later events against [state] with what it added. *)
Lemma inputs_match_cons (state : AgentState) (ev : event) (evs : list event) :
  match ev with
  | LLMInvoke input => input = SystemMessage system_prompt :: state
  | StructuredInvoke input => input = state
  | _ => True
  end ->
  inputs_match' (state ++ produced' ev) evs -> inputs_match' state (ev :: evs).
Proof.
  intros Hev [Hl Hs]. split; intros [|ev0 before] input rest H;
    cbn [app] in H; injection H as H0 H.
  - subst ev. now rewrite conversation_after_nil.
  - subst ev0. rewrite conversation_after_cons. exact (Hl before input rest H).
  - subst ev. now rewrite conversation_after_nil.
  - subst ev0. rewrite conversation_after_cons. exact (Hs before input rest H).
Qed.

Lemma final_matches_cons (state final : AgentState) (ev : event) (evs : list event) :
  final_matches' (state ++ produced' ev) final evs -> final_matches' state final (ev :: evs).
Proof.
  intros [canned [Hfinal Hcanned]]. exists canned. split; [|exact Hcanned].
  now rewrite conversation_after_cons.
Qed.

(** Events that add nothing to the conversation call no model. *)
Lemma silent_input (state : AgentState) (ev : event) :
  produced' ev = [] ->
  match ev with
  | LLMInvoke input => input = SystemMessage system_prompt :: state
  | StructuredInvoke input => input = state
  | _ => True
  end.
Proof. destruct ev; intros H; try exact I; discriminate H. Qed.

Lemma inputs_match_silent (state : AgentState) (silent evs : list event) :
  (forall ev, In ev silent -> produced' ev = []) ->
  inputs_match' state evs -> inputs_match' state (silent ++ evs).
Proof.
  induction silent as [|ev silent IH]; intros Hsilent Hevs; [exact Hevs|].
  cbn [app]. apply inputs_match_cons.
  - apply silent_input, Hsilent. now left.
  - rewrite (Hsilent ev (or_introl eq_refl)), app_nil_r.
    apply IH; [|exact Hevs]. intros ev' Hin. apply Hsilent. now right.
Qed.

Lemma final_matches_silent (state final : AgentState) (silent evs : list event) :
  (forall ev, In ev silent -> produced' ev = []) ->
  final_matches' state final evs -> final_matches' state final (silent ++ evs).
Proof.
  induction silent as [|ev silent IH]; intros Hsilent Hevs; [exact Hevs|].
  cbn [app]. apply final_matches_cons.
  rewrite (Hsilent ev (or_introl eq_refl)), app_nil_r.
  apply IH; [|exact Hevs]. intros ev' Hin. apply Hsilent. now right.
Qed.

(** The tool node calls neither model. *)
Lemma tool_events_silent (calls : list ToolCall) :
  forall ev, In ev (tool_events transit_db calls) -> produced' ev = [].
Proof.
  intros ev Hin. induction calls as [|call calls IH]; [now destruct Hin|].
  cbn [tool_events flat_map] in Hin. fold (tool_events transit_db calls) in Hin.
  destruct Hin as [<-|Hin]; [reflexivity|].
  apply in_app_or in Hin. destruct Hin as [Hin|Hin]; [|now apply IH].
  apply in_map_iff in Hin. destruct Hin as [line [<- _]]. reflexivity.
Qed.

(** A run from the agent node on a conversation that is not empty, and a
    run from the node the edge picks after an answer of the agent.  The
    inputs of its calls are those of [inputs_match]; and either the
    recursion limit ends it, or it returns a conversation that continues
    the one it started from, ends on an assistant message without tool
    call, and is the one of [final_matches]. *)
Lemma run_outcome (limit : nat) :
  (forall state : AgentState,
      state <> [] ->
      exists evs outcome,
        run' limit agent state = (evs, outcome)
        /\ inputs_match' state evs
        /\ (outcome = Raise GraphRecursionError
            \/ exists final, outcome = Ok final
                             /\ ends_answered state final
                             /\ final_matches' state final evs))
  /\ (forall (state : AgentState) (text : string) (calls : list ToolCall),
         let after_tools :=
           (state ++ [AIMessage text calls])
           ++ tool_messages similarity_search transit_db calls in
         exists evs outcome,
           run' limit (next_node (AIMessage text calls)) (state ++ [AIMessage text calls])
           = (evs, outcome)
           /\ inputs_match' after_tools evs
           /\ (outcome = Raise GraphRecursionError
               \/ exists final, outcome = Ok final
                                /\ ends_answered (state ++ [AIMessage text calls]) final
                                /\ final_matches' after_tools final evs)).
Proof.
  assert (Hraise : forall (limit' : nat) (node : Node) (state base : AgentState)
                          (start : AgentState),
             run' limit' node state = ([], Raise GraphRecursionError) ->
             exists evs outcome,
               run' limit' node state = (evs, outcome)
               /\ inputs_match' base evs
               /\ (outcome = Raise GraphRecursionError
                   \/ exists final, outcome = Ok final
                                    /\ ends_answered start final
                                    /\ final_matches' base final evs)).
  { intros limit' node state base start Hrun.
    exists [], (Raise GraphRecursionError).
    split; [exact Hrun|]. split; [apply inputs_match_nil | now left]. }
  assert (Hend : forall (limit' : nat) (state : AgentState) (text : string),
             exists evs outcome,
               run' limit' END (state ++ [AIMessage text []]) = (evs, outcome)
               /\ inputs_match' ((state ++ [AIMessage text []]) ++ []) evs
               /\ (outcome = Raise GraphRecursionError
                   \/ exists final,
                        outcome = Ok final
                        /\ ends_answered (state ++ [AIMessage text []]) final
                        /\ final_matches' ((state ++ [AIMessage text []]) ++ []) final evs)).
  { intros [|limit'] state text; [now apply Hraise|].
    exists [], (Ok (state ++ [AIMessage text []])).
    split; [apply run_END|]. split; [apply inputs_match_nil|].
    right. eexists. split; [reflexivity|]. split; [split|].
    - exists []. now rewrite app_nil_r.
    - now exists state, text.
    - exists []. split; [|now left].
      now rewrite conversation_after_nil, !app_nil_r. }
  assert (Hfixed : forall (limit' : nat) (state : AgentState) (text : string),
             agent_logic llm_with_tools state = ([], Ok [AIMessage text []]) ->
             contains "READY_TO_BOOK" text = false ->
             text = booking_link_response \/ text = decline_response ->
             exists evs outcome,
               run' (S limit') agent state = (evs, outcome)
               /\ inputs_match' state evs
               /\ (outcome = Raise GraphRecursionError
                   \/ exists final, outcome = Ok final
                                    /\ ends_answered state final
                                    /\ final_matches' state final evs)).
  { intros [|limit'] state text Ha Hs Htext.
    - apply Hraise. rewrite (run_agent_unfold 0 state _ _ Ha). reflexivity.
    - exists [], (Ok (state ++ [AIMessage text []])).
      split; [exact (run_agent_final _ _ _ _ limit' state [] text Ha Hs)|].
      split; [apply inputs_match_nil|].
      right. eexists. split; [reflexivity|]. split; [split|].
      + now eexists.
      + now exists state, text.
      + exists [AIMessage text []]. rewrite conversation_after_nil.
        split; [reflexivity|]. right.
        destruct Htext as [->| ->]; [now left | now right]. }
  induction limit as [|limit [IHagent IHnext]].
  - split.
    + intros state _. now apply Hraise.
    + intros state text calls after_tools. now apply Hraise.
  - split.
    + intros state Hne. destruct (last_message_nonempty state Hne) as [last Hl].
      destruct (in_list (lower (content last)) affirmative) eqn:Ha;
        [|destruct (in_list (lower (content last)) negative) eqn:Hn].
      * apply (Hfixed limit state booking_link_response);
          [exact (agent_logic_affirmative llm_with_tools state last Hl Ha)
          | reflexivity | now left].
      * apply (Hfixed limit state decline_response);
          [exact (agent_logic_negative llm_with_tools state last Hl Hn)
          | reflexivity | now right].
      * pose proof (agent_logic_default llm_with_tools state last Hl Ha Hn) as Hagent.
        set (input := SystemMessage system_prompt :: state) in *.
        destruct (IHnext state (fst (llm_with_tools input)) (snd (llm_with_tools input)))
          as [evs' [outcome [Hrun [Hinputs Hout]]]].
        exists (LLMInvoke input :: evs'), outcome. split; [|split].
        -- rewrite (run_agent_unfold limit state _ _ Hagent).
           exact (after_eq [LLMInvoke input] evs' outcome _ Hrun).
        -- apply inputs_match_cons; [reflexivity|].
           cbn [produced]. rewrite <- app_assoc in Hinputs. exact Hinputs.
        -- destruct Hout as [->|[final [-> [Hends Hfinal]]]]; [now left|].
           right. exists final. split; [reflexivity|]. split.
           ++ apply (ends_answered_trans state
                       (state ++ [AIMessage (fst (llm_with_tools input))
                                            (snd (llm_with_tools input))]) final);
                [now eexists | exact Hends].
           ++ apply final_matches_cons. cbn [produced].
              rewrite <- app_assoc in Hfinal. exact Hfinal.
    + intros state text calls after_tools. subst after_tools. unfold next_node.
      destruct calls as [|call calls]; cbn [requests_tool content].
      * destruct (contains "READY_TO_BOOK" text); [|apply Hend].
        cbn [tool_messages map]. rewrite app_nil_r.
        assert (Hinputs : inputs_match' (state ++ [AIMessage text []])
                            [Printed "📝 Generating Final Ticket JSON...";
                             StructuredInvoke (state ++ [AIMessage text []])]).
        { apply inputs_match_cons; [exact I|]. cbn [produced]. rewrite app_nil_r.
          apply inputs_match_cons; [reflexivity | apply inputs_match_nil]. }
        destruct limit as [|limit'].
        { exists [Printed "📝 Generating Final Ticket JSON...";
                  StructuredInvoke (state ++ [AIMessage text []])],
                 (Raise GraphRecursionError).
          split; [|split; [exact Hinputs | now left]].
          rewrite (run_step _ _ _ _ 0 booking (state ++ [AIMessage text []])
                     [Printed "📝 Generating Final Ticket JSON...";
                      StructuredInvoke (state ++ [AIMessage text []])]
                     END ((state ++ [AIMessage text []])
                          ++ [AIMessage (str_TicketBooking
                                           (structured_llm (state ++ [AIMessage text []])))
                                        []])
                     (fun E => ltac:(discriminate E)));
            [reflexivity|].
          unfold step. rewrite booking_parser_eq, bind_Ok. apply after_ret. }
        eexists. eexists. split; [apply run_booking_unfold|]. split; [exact Hinputs|].
        right. eexists. split; [reflexivity|]. split; [split|].
        -- now eexists.
        -- now eexists; eexists.
        -- exists []. split; [|now left].
           unfold conversation_after. cbn [flat_map produced app].
           now rewrite app_nil_r.
      * destruct (IHagent ((state ++ [AIMessage text (call :: calls)])
                           ++ tool_messages similarity_search transit_db (call :: calls)))
          as [evs' [outcome [Hrun [Hinputs Hout]]]].
        { intros H. apply app_eq_nil in H. destruct H as [H _].
          apply app_eq_nil in H. destruct H as [_ H]. discriminate H. }
        exists (tool_events transit_db (call :: calls) ++ evs'), outcome. split; [|split].
        -- rewrite run_tools_unfold. now apply after_eq.
        -- apply inputs_match_silent; [apply tool_events_silent | exact Hinputs].
        -- destruct Hout as [->|[final [-> [Hends Hfinal]]]]; [now left|].
           right. exists final. split; [reflexivity|]. split.
           ++ apply (ends_answered_trans _ _ _ ltac:(now eexists) Hends).
           ++ apply final_matches_silent; [apply tool_events_silent | exact Hfinal].
Qed.

End TurnFacts.

Section Turns.
Import Py RagPipeline App Spec.
Local Open Scope list_scope.

Variable llm_with_tools : list BaseMessage -> string * list ToolCall.
Variable structured_llm : list BaseMessage -> TicketBooking.
Variable similarity_search : list Document -> string -> nat -> list Document.
Variable transit_db : TransitRetriever.

(** Started on a conversation that is not empty, the graph raises nothing
    but the runtime's [GraphRecursionError], whatever the model answers
    and whatever the recursion limit: no [messages[-1]] meets an empty
    list and the tool node always finds an assistant message.  When the
    run returns, the final conversation is the initial one with messages
    appended, the last of them an assistant message that asks for no
    tool. *)
Theorem graph_raises_only_at_recursion_limit :
  forall (limit : nat) (state : AgentState) (evs : list event)
         (outcome : result AgentState),
    state <> [] ->
    run llm_with_tools structured_llm similarity_search transit_db limit agent state
    = (evs, outcome) ->
    outcome = Raise GraphRecursionError
    \/ exists final, outcome = Ok final /\ ends_answered state final.
Proof.
  intros limit state evs outcome Hne Hrun.
  destruct (run_outcome llm_with_tools structured_llm similarity_search transit_db limit)
    as [Hagent _].
  destruct (Hagent state Hne) as [evs' [outcome' [Hrun' [_ Hout]]]].
  rewrite Hrun in Hrun'. injection Hrun' as <- <-.
  destruct Hout as [->|[final [-> [Hends _]]]]; [now left|].
  right. now exists final.
Qed.

(** A pass of the chat loop on an ASCII line.  If the line, trimmed and
    lower-cased, is exit or quit, the pass leaves the loop and nothing has
    been run or printed.  Otherwise the graph is run, under the default
    recursion limit, on the one human message that holds the trimmed
    line; if the limit ends the run, [GraphRecursionError] leaves the
    loop; if not, the run has ended on an assistant message, the pass
    prints its text after the events of the run and that text is the
    reply.  The pass raises nothing else. *)
Theorem chat_turn_outcomes :
  forall line : string,
    is_ascii line = true ->
    (In (lower (strip line)) ["exit"; "quit"] ->
     chat_turn llm_with_tools structured_llm similarity_search transit_db line
     = ([], Ok Break))
    /\ (~ In (lower (strip line)) ["exit"; "quit"] ->
        exists evs outcome,
          run llm_with_tools structured_llm similarity_search transit_db
              default_recursion_limit agent [HumanMessage (strip line)]
          = (evs, outcome)
          /\ ((outcome = Raise GraphRecursionError
               /\ chat_turn llm_with_tools structured_llm similarity_search transit_db line
                  = (evs, Raise GraphRecursionError))
              \/ (exists prefix text,
                     outcome = Ok (prefix ++ [AIMessage text []])
                     /\ chat_turn llm_with_tools structured_llm similarity_search
                                  transit_db line
                        = (evs ++ [Printed (nl ++ "AI: " ++ text ++ " " ++ nl)%string],
                           Ok (Reply text))))).
Proof.
  intros line _. split.
  - intros Hin. apply in_list_In in Hin. unfold chat_turn. now rewrite Hin.
  - intros Hnot.
    assert (Hx : in_list (lower (strip line)) ["exit"; "quit"] = false).
    { destruct (in_list (lower (strip line)) ["exit"; "quit"]) eqn:E; [|reflexivity].
      apply in_list_In in E. contradiction. }
    destruct (run_outcome llm_with_tools structured_llm similarity_search transit_db
                default_recursion_limit) as [Hagent _].
    destruct (Hagent [HumanMessage (strip line)] ltac:(discriminate))
      as [evs [outcome [Hrun [_ Hout]]]].
    exists evs, outcome. split; [exact Hrun|].
    rewrite (chat_turn_invoke _ _ _ _ line Hx), Hrun.
    destruct Hout as [->|[final [-> [[_ [prefix [text ->]]] _]]]].
    + left. split; reflexivity.
    + right. exists prefix, text. split; [reflexivity|].
      now rewrite last_message_snoc.
Qed.

(** With a model that never asks for the tool, every turn on a
    conversation that is not empty ends within two nodes, so that it
    returns under every recursion limit that leaves a step to spare after
    them: the language model is called at most once, the Search Tool is
    never run, and at most two messages are added. *)
Theorem turn_without_tool_requests_is_short :
  (forall input, snd (llm_with_tools input) = []) ->
  forall (limit : nat) (state : AgentState),
    state <> [] ->
    exists evs final,
      run llm_with_tools structured_llm similarity_search transit_db
          (S (S (S limit))) agent state
      = (evs, Ok final)
      /\ llm_invocations evs <= 1
      /\ (forall q, ~ In (ToolInvoke q) evs)
      /\ length state < length final <= length state + 2.
Proof.
  intros Hno limit state Hne.
  destruct (agent_logic_answers llm_with_tools state Hne)
    as [evs [text [calls [Ha Hevs]]]].
  assert (Hcalls : calls = [])
    by (destruct Hevs as [[_ ->]|[_ ->]]; [reflexivity | apply Hno]).
  subst calls.
  assert (Hcount : llm_invocations evs <= 1 /\ forall q, ~ In (ToolInvoke q) evs).
  { destruct Hevs as [[-> _]|[-> _]]; split.
    - unfold llm_invocations. simpl. lia.
    - intros q [].
    - unfold llm_invocations. simpl. lia.
    - intros q [Hin|[]]. discriminate Hin. }
  destruct Hcount as [Hllm Htool].
  rewrite (run_agent_unfold llm_with_tools structured_llm similarity_search
             transit_db (S (S limit)) state evs _ Ha).
  unfold next_node. cbn [requests_tool content].
  destruct (contains "READY_TO_BOOK" text).
  - rewrite run_booking_unfold. unfold after. cbn [fst snd].
    eexists. eexists. split; [reflexivity|]. split; [|split].
    + rewrite llm_invocations_app. unfold llm_invocations at 2. simpl. lia.
    + intros q Hin. apply in_app_or in Hin. destruct Hin as [Hin|Hin].
      * exact (Htool q Hin).
      * simpl in Hin. destruct Hin as [Hin|[Hin|[]]]; discriminate Hin.
    + rewrite !length_app. simpl. lia.
  - rewrite run_END, after_ret.
    eexists. eexists. split; [reflexivity|]. split; [exact Hllm|].
    split; [exact Htool|]. rewrite length_app. simpl. lia.
Qed.

(** A turn starts from the typed line alone.  For an ASCII line that is
    neither an exit word nor a yes or a no, the first thing a pass of the
    chat loop does is to call the model on the system prompt followed by
    that one line, trimmed: nothing of earlier turns is passed on. *)
Theorem turn_starts_from_the_line_alone :
  forall line : string,
    is_ascii line = true ->
    in_list (lower (strip line)) ["exit"; "quit"] = false ->
    in_list (lower (strip line)) affirmative = false ->
    in_list (lower (strip line)) negative = false ->
    exists rest outcome,
      chat_turn llm_with_tools structured_llm similarity_search transit_db line
      = (LLMInvoke [SystemMessage system_prompt; HumanMessage (strip line)] :: rest,
         outcome).
Proof.
  intros line _ Hx Ha Hn.
  pose proof (agent_logic_default llm_with_tools [HumanMessage (strip line)]
                (HumanMessage (strip line)) eq_refl Ha Hn) as Hagent.
  rewrite (chat_turn_invoke _ _ _ _ line Hx).
  change default_recursion_limit with (S 24).
  rewrite (run_agent_unfold _ _ _ _ 24 _ _ _ Hagent).
  match goal with
  | |- context [after _ ?m] => destruct m as [evs [final|e]]
  end; unfold after; cbn [fst snd app].
  - destruct (last_message final); eexists; eexists; reflexivity.
  - eexists. eexists. reflexivity.
Qed.

(** What the models are shown during a turn started on a conversation
    that is not empty, whatever the recursion limit and however the turn
    ends.  Every call to the language model is given the system prompt
    followed by the conversation of that moment: the conversation the turn
    began with and then, for each earlier call of the turn, in order, the
    assistant message made of that call's answer and the tool message of
    each tool call it asked for, carrying the text the search returned.
    The structured model is given that conversation without the system
    prompt.  Nothing is dropped, reordered or made up, and the system
    prompt is not stored.  When the turn returns, the conversation it
    returns is the one the turn began with, then what the calls added,
    then at most one of the two fixed replies. *)
Theorem services_see_the_whole_turn :
  forall (limit : nat) (state : AgentState) (evs : list event)
         (outcome : result AgentState),
    state <> [] ->
    run llm_with_tools structured_llm similarity_search transit_db limit agent state
    = (evs, outcome) ->
    inputs_match llm_with_tools structured_llm similarity_search transit_db state evs
    /\ (forall final,
          outcome = Ok final ->
          final_matches llm_with_tools structured_llm similarity_search transit_db
                        state final evs).
Proof.
  intros limit state evs outcome Hne Hrun.
  destruct (run_outcome llm_with_tools structured_llm similarity_search transit_db limit)
    as [Hagent _].
  destruct (Hagent state Hne) as [evs' [outcome' [Hrun' [Hinputs Hout]]]].
  rewrite Hrun in Hrun'. injection Hrun' as <- <-.
  split; [exact Hinputs|]. intros final ->.
  destruct Hout as [Hraise|[final' [Hfinal [_ Hmatch]]]]; [discriminate Hraise|].
  injection Hfinal as <-. exact Hmatch.
Qed.

(** On a retriever whose index was not built, the tool node answers every
    tool call of the last assistant message with a tool message that
    carries the text "Pipeline not initialized." and the call's id, in the
    order of the calls; it prints nothing and calls no model. *)
Theorem unbuilt_index_answers_with_sentinel :
  forall (state : AgentState) (text : string) (calls : list ToolCall),
    retriever transit_db = None ->
    tool_node similarity_search transit_db (state ++ [AIMessage text calls])
    = (map (fun call => ToolInvoke (query call)) calls,
       Ok (map (fun call => ToolMessage "Pipeline not initialized." (id call)) calls)).
Proof.
  intros state text calls Hnone. rewrite tool_node_eq. f_equal.
  - induction calls as [|call calls IH]; [reflexivity|].
    cbn [tool_events flat_map map]. fold (tool_events transit_db calls).
    unfold search_log at 1. rewrite Hnone. cbn [map app]. now rewrite IH.
  - f_equal. unfold tool_messages. apply map_ext. intros call.
    unfold search_text. now rewrite Hnone.
Qed.

End Turns.

Section TurnsExamples.
Import Py RagPipeline App Spec Examples.
Local Open Scope list_scope.

(** A search and then a booking, under the default recursion limit. *)
Lemma graph_raises_only_at_recursion_limit_witness :
  snd (run searches_once a_booking first_k not_built default_recursion_limit agent question)
  = Raise GraphRecursionError
  \/ exists final,
       snd (run searches_once a_booking first_k not_built default_recursion_limit
              agent question) = Ok final
       /\ ends_answered question final.
Proof.
  exact (graph_raises_only_at_recursion_limit searches_once a_booking first_k not_built
           default_recursion_limit question _ _ ltac:(discriminate)
           (surjective_pairing _)).
Defined.

(** The lines " Exit " and " Hello ", with a model that only greets. *)
Lemma chat_turn_outcomes_witness :
  chat_turn greeter a_booking first_k not_built " Exit " = ([], Ok Break)
  /\ exists evs outcome,
       run greeter a_booking first_k not_built default_recursion_limit agent
           [HumanMessage "Hello"]
       = (evs, outcome)
       /\ ((outcome = Raise GraphRecursionError
            /\ chat_turn greeter a_booking first_k not_built " Hello "
               = (evs, Raise GraphRecursionError))
           \/ (exists prefix text,
                 outcome = Ok (prefix ++ [AIMessage text []])
                 /\ chat_turn greeter a_booking first_k not_built " Hello "
                    = (evs ++ [Printed (nl ++ "AI: " ++ text ++ " " ++ nl)%string],
                       Ok (Reply text)))).
Proof.
  split.
  - apply (proj1 (chat_turn_outcomes greeter a_booking first_k not_built " Exit " eq_refl)).
    left. reflexivity.
  - apply (proj2 (chat_turn_outcomes greeter a_booking first_k not_built " Hello " eq_refl)).
    intros [H|[H|[]]]; discriminate H.
Defined.

(** A model that only greets. *)
Lemma turn_without_tool_requests_is_short_witness :
  exists evs final,
    run greeter a_booking first_k not_built 3 agent question = (evs, Ok final)
    /\ llm_invocations evs <= 1
    /\ (forall q, ~ In (ToolInvoke q) evs)
    /\ length question < length final <= length question + 2.
Proof.
  exact (turn_without_tool_requests_is_short greeter a_booking first_k not_built
           (fun _ => eq_refl) 0 question ltac:(discriminate)).
Defined.

(** The line " Which trains go to Delhi? ". *)
Lemma turn_starts_from_the_line_alone_witness :
  exists rest outcome,
    chat_turn searches_once a_booking first_k not_built " Which trains go to Delhi? "
    = (LLMInvoke [SystemMessage system_prompt; HumanMessage "Which trains go to Delhi?"]
         :: rest, outcome).
Proof.
  exact (turn_starts_from_the_line_alone searches_once a_booking first_k not_built
           " Which trains go to Delhi? " eq_refl eq_refl eq_refl eq_refl).
Defined.

(** A search and then a booking, on an index that was not built. *)
Lemma services_see_the_whole_turn_witness :
  inputs_match searches_once a_booking first_k not_built question
    [LLMInvoke (SystemMessage system_prompt :: question);
     ToolInvoke "trains to Delhi";
     LLMInvoke (SystemMessage system_prompt :: after_search);
     Printed "📝 Generating Final Ticket JSON...";
     StructuredInvoke (after_search ++ [AIMessage "All set. READY_TO_BOOK" []])]
  /\ final_matches searches_once a_booking first_k not_built question
       (after_search ++ [AIMessage "All set. READY_TO_BOOK" [];
                         AIMessage (str_TicketBooking (a_booking [])) []])
       [LLMInvoke (SystemMessage system_prompt :: question);
        ToolInvoke "trains to Delhi";
        LLMInvoke (SystemMessage system_prompt :: after_search);
        Printed "📝 Generating Final Ticket JSON...";
        StructuredInvoke (after_search ++ [AIMessage "All set. READY_TO_BOOK" []])].
Proof.
  destruct (services_see_the_whole_turn searches_once a_booking first_k not_built
              6 question _ _ ltac:(discriminate) eq_refl) as [Hinputs Hfinal].
  split; [exact Hinputs | exact (Hfinal _ eq_refl)].
Defined.

(** Two calls in one assistant message. *)
Lemma unbuilt_index_answers_with_sentinel_witness :
  tool_node first_k not_built
    (question ++ [AIMessage "" [call_0; {| id := "call_1"; query := "refund policy" |}]])
  = ([ToolInvoke "trains to Delhi"; ToolInvoke "refund policy"],
     Ok [ToolMessage "Pipeline not initialized." "call_0";
         ToolMessage "Pipeline not initialized." "call_1"]).
Proof.
  exact (unbuilt_index_answers_with_sentinel first_k not_built question ""
           [call_0; {| id := "call_1"; query := "refund policy" |}] eq_refl).
Defined.

End TurnsExamples.
